(** * SimpleHost: the upload / expiry / download lifecycle of [main.go]

    A shallow embedding of the single Go source file of the service.
    Go strings are byte strings and are modelled by [string]; file
    contents are [list byte]; [time.Time] values are integers counting
    nanoseconds since the Unix epoch; the registry [map[string]time.Time]
    is a [gmap string Z].  The handlers run in a small state monad that
    also records, in program order, the effects they perform.

    The model is sequential: a handler, or the callback of a timer, runs
    to completion before the next one starts, so the mutex [mu] has no
    counterpart here, and neither have the deferred [Close] calls.  Paths
    follow the Unix rules of [path/filepath].  The standard library
    functions the handlers call are modelled from their documented
    behaviour; what an I/O call answers for reasons the model does not
    hold (permissions, a full disk) is an input of the handler. *)

From Stdlib Require Import ZArith Ascii String List Lia.
From Stdlib Require Import Strings.Byte.
From stdpp Require Import gmap strings list pretty.

Local Open Scope Z_scope.

(** ** Byte strings as character lists *)

Abbreviation chars := list_ascii_of_string.
Abbreviation text := string_of_list_ascii.

Definition sep : ascii := "/"%char.
Definition dot : ascii := "."%char.

(** [os.IsPathSeparator] on Unix. *)
Definition IsPathSeparator (c : ascii) : bool := Ascii.eqb c sep.

(** ** [filepath.Ext]

    The Go loop walks [i] from [len(path)-1] down to [0], stops at a path
    separator, and returns [path[i:]] at the first dot it meets.  Here
    [before] is [path[:i+1]] reversed (its head is [path[i]]) and [suffix]
    is [path[i+1:]]. *)
Fixpoint ext_loop (before suffix : list ascii) : list ascii :=
  match before with
  | [] => []
  | c :: before' =>
      if IsPathSeparator c then []
      else if Ascii.eqb c dot then c :: suffix
      else ext_loop before' (c :: suffix)
  end.

Definition Ext (path : string) : string :=
  text (ext_loop (rev (chars path)) []).

(** ** [fmt.Sprintf("%s-%d%s", ...)]

    [%d] of an [int64] is its signed decimal numeral, which is what
    [pretty] computes on [Z]. *)
Definition Sprintf_s_d_s (prefix : string) (n : Z) (suffix : string) : string :=
  prefix +:+ "-" +:+ pretty n +:+ suffix.

(** ** [filepath.Clean] and [filepath.Join] on Unix

    [Clean] is modelled on path elements: the path is cut at every
    separator, empty and [.] elements are dropped, a [..] element removes
    the element before it, is dropped at the top of a rooted path, and is
    kept (counted in [ups]) at the top of a relative one. *)
Fixpoint elements (s : list ascii) : list (list ascii) :=
  match s with
  | [] => [[]]
  | c :: s' =>
      if IsPathSeparator c then [] :: elements s'
      else match elements s' with
           | e :: es => (c :: e) :: es
           | [] => [[c]]
           end
  end.

Record cleaned := { ups : nat; stack : list (list ascii) }.

Definition is_dot (e : list ascii) : bool :=
  match e with [c] => Ascii.eqb c dot | _ => false end.
Definition is_dotdot (e : list ascii) : bool :=
  match e with [c; d] => Ascii.eqb c dot && Ascii.eqb d dot | _ => false end.
Definition is_empty (e : list ascii) : bool :=
  match e with [] => true | _ => false end.

(** [stack] holds the kept elements, the last one first. *)
Definition clean_step (rooted : bool) (st : cleaned) (e : list ascii) : cleaned :=
  if is_empty e || is_dot e then st
  else if is_dotdot e then
    match stack st with
    | _ :: below => {| ups := ups st; stack := below |}
    | [] => if rooted then st else {| ups := S (ups st); stack := [] |}
    end
  else {| ups := ups st; stack := e :: stack st |}.

Fixpoint join_elements (es : list (list ascii)) : list ascii :=
  match es with
  | [] => []
  | [e] => e
  | e :: es' => e ++ sep :: join_elements es'
  end.

Definition render (rooted : bool) (st : cleaned) : list ascii :=
  let comps := repeat [dot; dot] (ups st) ++ rev (stack st) in
  if rooted then sep :: join_elements comps
  else match comps with [] => [dot] | _ => join_elements comps end.

Definition is_rooted (s : list ascii) : bool :=
  match s with c :: _ => IsPathSeparator c | [] => false end.

Definition resolve (s : list ascii) : cleaned :=
  fold_left (clean_step (is_rooted s)) (elements s) {| ups := 0; stack := [] |}.

Definition clean_chars (s : list ascii) : list ascii :=
  render (is_rooted s) (resolve s).

Definition Clean (path : string) : string := text (clean_chars (chars path)).

(** [strings.Join(elem, "/")]. *)
Fixpoint strings_Join (elem : list string) : string :=
  match elem with
  | [] => ""
  | [e] => e
  | e :: rest => e +:+ "/" +:+ strings_Join rest
  end.

(** [filepath.Join]: leading empty elements are skipped, what remains is
    joined with separators and cleaned; no non-empty element gives [""]. *)
Fixpoint Join (elem : list string) : string :=
  match elem with
  | [] => ""
  | e :: rest =>
      if decide (e = "") then Join rest else Clean (strings_Join elem)
  end.

(** [strings.Contains] on characters, and on strings. *)
Fixpoint has_prefix (p s : list ascii) : bool :=
  match p, s with
  | [], _ => true
  | _ :: _, [] => false
  | a :: p', b :: s' => Ascii.eqb a b && has_prefix p' s'
  end.

Fixpoint contains_chars (sub s : list ascii) : bool :=
  has_prefix sub s ||
  match s with
  | [] => false
  | _ :: s' => contains_chars sub s'
  end.

Definition Contains (s substr : string) : bool :=
  contains_chars (chars substr) (chars s).

(** ** Time

    A [time.Time] is the number of nanoseconds since the Unix epoch; the
    model does not separate the wall clock from the monotonic clock. *)
Definition Second : Z := 1000000000.
Definition Minute : Z := 60 * Second.
Definition Unix (t : Z) : Z := t / Second.
Definition Add (t d : Z) : Z := t + d.
(** [t.After(u)]: strictly later. *)
Definition After (t u : Z) : bool := u <? t.

(** ** HTTP values *)
Definition StatusOK : Z := 200.
Definition StatusBadRequest : Z := 400.
Definition StatusNotFound : Z := 404.
Definition StatusMethodNotAllowed : Z := 405.
Definition StatusInternalServerError : Z := 500.

(** The HTML pages are fixed templates; a page is represented by its
    template and the values substituted into it. *)
Inductive Body :=
| ErrorText (msg : string)
| UploadFormPage
| UploadedPage (newFileName downloadLink : string)
| FileBytes (data : list byte)
| NoBody.

Record Response := {
  status : Z;
  header : gmap string string;
  body : Body
}.

(** What a handler leaves behind: a response, or a run-time panic (which
    [net/http] recovers, dropping the connection). *)
Inductive Outcome :=
| Replied (resp : Response)
| Panicked.

Inductive Part :=
| ValuePart (name value : string)
| FilePart (name Filename : string) (content : list byte).

Inductive RequestBody :=
| NotMultipart
| Multipart (parts : list Part).

(** A request: method, parsed URL query, body.  The model has no request
    headers: a request carries no [Range] or conditional header. *)
Record Request := {
  Method : string;
  Query : list (string * string);
  Payload : RequestBody
}.

(** [http.Error]. *)
Definition http_Error (msg : string) (code : Z) : Outcome :=
  Replied {| status := code;
             header := <["X-Content-Type-Options" := "nosniff"]>
                         {["Content-Type" := "text/plain; charset=utf-8"]};
             body := ErrorText msg |}.

(** [url.Values.Get]: the first value of the key, [""] when there is none. *)
Fixpoint Get (q : list (string * string)) (key : string) : string :=
  match q with
  | [] => ""
  | (k, v) :: q' => if String.eqb k key then v else Get q' key
  end.

Fixpoint value_bytes (parts : list Part) : Z :=
  match parts with
  | [] => 0
  | ValuePart _ v :: ps => Z.of_nat (String.length v) + value_bytes ps
  | FilePart _ _ _ :: ps => value_bytes ps
  end.

(** [r.ParseMultipartForm(maxMemory)]: fails on a body that is not
    well-formed multipart data, or whose non-file values exceed
    [maxMemory] plus 10 MiB.  File parts have no size limit: [maxMemory]
    only bounds how much of them is held in memory, the rest is kept in
    temporary files. *)
Definition ParseMultipartForm (maxMemory : Z) (r : Request) : option (list Part) :=
  match Payload r with
  | NotMultipart => None
  | Multipart parts =>
      if maxMemory + Z.shiftl 10 20 <? value_bytes parts then None
      else Some parts
  end.

(** [r.FormFile(key)]: the first file part of that name. *)
Fixpoint FormFile (form : list Part) (key : string) : option (string * list byte) :=
  match form with
  | [] => None
  | FilePart k fname content :: ps =>
      if String.eqb k key then Some (fname, content) else FormFile ps key
  | ValuePart _ _ :: ps => FormFile ps key
  end.

(** ** Server state and the world around it *)
Record Server := {
  storagePath : string;
  files : gmap string Z
}.

Definition NewServer (path : string) : Server :=
  {| storagePath := path; files := ∅ |}.

(** The world: the server, the file system (a file per cleaned path) and
    the pending [time.AfterFunc] timers, each with its delay and the name
    its callback will delete. *)
Record World := {
  server : Server;
  disk : gmap string (list byte);
  timers : list (Z * string)
}.

Inductive Event :=
| EvCreate (path : string) (ok : bool)
| EvCopy (path : string) (written : list byte) (ok : bool)
| EvRegister (name : string) (expiresAt : Z)
| EvAfterFunc (delay : Z) (name : string)
| EvOpen (path : string) (ok : bool)
| EvStat (path : string) (ok : bool)
| EvServeFile (path : string)
| EvRemove (path : string) (ok : bool)
| EvUnregister (name : string)
| EvPrintDeleteError
| EvPrintDeleted (name : string).

(** ** The monad of handlers: state, and a log of effects *)
Record Run (A : Type) := MkRun {
  world_after : World;
  effects : list Event;
  returned : A
}.
Arguments MkRun {A} _ _ _.
Arguments world_after {A} _.
Arguments effects {A} _.
Arguments returned {A} _.

Definition M (A : Type) : Type := World -> Run A.

Definition ret {A} (a : A) : M A := fun w => MkRun w [] a.

Definition bind {A B} (m : M A) (k : A -> M B) : M B :=
  fun w =>
    let r1 := m w in
    let r2 := k (returned r1) (world_after r1) in
    MkRun (world_after r2) (effects r1 ++ effects r2) (returned r2).

Notation "'do' x <- m ; k" := (bind m (fun x => k))
  (at level 10, x name, m at level 100, k at level 200).

Definition get_server : M Server := fun w => MkRun w [] (server w).
Definition emit (e : Event) : M unit := fun w => MkRun w [e] tt.

Definition set_disk (d : gmap string (list byte)) (w : World) : World :=
  {| server := server w; disk := d; timers := timers w |}.
Definition set_files (f : gmap string Z) (w : World) : World :=
  {| server := {| storagePath := storagePath (server w); files := f |};
     disk := disk w; timers := timers w |}.
Definition set_timers (t : list (Z * string)) (w : World) : World :=
  {| server := server w; disk := disk w; timers := t |}.

(** ** File-system and timer primitives

    Whether an operation fails for a reason outside the model (a missing
    directory, permissions, a full disk) is an input of the call. *)

(** [os.Create]: creates or truncates the file. *)
Definition os_Create (fails : bool) (path : string) : M bool :=
  fun w =>
    if fails then MkRun w [EvCreate path false] false
    else MkRun (set_disk (<[path := []]> (disk w)) w) [EvCreate path true] true.

(** [io.Copy(out, file)]: writes the whole content, or fails after having
    written some prefix of it. *)
Definition io_Copy (fails_after : option nat) (path : string) (content : list byte)
  : M bool :=
  fun w =>
    match fails_after with
    | Some n =>
        let written := take n content in
        MkRun (set_disk (<[path := written]> (disk w)) w)
              [EvCopy path written false] false
    | None =>
        MkRun (set_disk (<[path := content]> (disk w)) w)
              [EvCopy path content true] true
    end.

(** [s.files[name] = t]. *)
Definition register (name : string) (t : Z) : M unit :=
  fun w =>
    MkRun (set_files (<[name := t]> (files (server w))) w) [EvRegister name t] tt.

(** [delete(s.files, name)]. *)
Definition unregister (name : string) : M unit :=
  fun w =>
    MkRun (set_files (delete name (files (server w))) w) [EvUnregister name] tt.

(** [time.AfterFunc(d, func() { s.deleteFile(name) })]. *)
Definition AfterFunc (d : Z) (name : string) : M unit :=
  fun w => MkRun (set_timers (timers w ++ [(d, name)]) w) [EvAfterFunc d name] tt.

(** [os.Open]. *)
Definition os_Open (fails : bool) (path : string) : M bool :=
  fun w =>
    let ok := negb fails && bool_decide (is_Some (disk w !! path)) in
    MkRun w [EvOpen path ok] ok.

(** [file.Stat()], of which the handler uses the size. *)
Definition file_Stat (fails : bool) (path : string) : M (option Z) :=
  fun w =>
    match disk w !! path with
    | Some content =>
        if fails then MkRun w [EvStat path false] None
        else MkRun w [EvStat path true] (Some (Z.of_nat (length content)))
    | None => MkRun w [EvStat path false] None
    end.

(** [os.Remove]. *)
Definition os_Remove (fails : bool) (path : string) : M bool :=
  fun w =>
    match disk w !! path with
    | Some _ =>
        if fails then MkRun w [EvRemove path false] false
        else MkRun (set_disk (delete path (disk w)) w) [EvRemove path true] true
    | None => MkRun w [EvRemove path false] false
    end.

(** [make([]byte, n)]. *)
Definition make_bytes (n : Z) : list byte := repeat x00 (Z.to_nat n).

Definition dquote : string := String (ascii_of_nat 34) "".

(** [http.ServeFile] for a request without range or conditional headers:
    the headers already set are kept, the file is opened again and its
    whole content is the body (no body for [HEAD]).  The header map of the
    answer holds the headers the handler set; those [ServeFile] adds of
    its own ([Last-Modified], [Accept-Ranges]) are not represented. *)
Definition http_ServeFile (r : Request) (hdr : gmap string string) (name : string)
  : M Outcome :=
  fun w =>
    match disk w !! name with
    | Some content =>
        MkRun w [EvServeFile name]
          (Replied {| status := StatusOK; header := hdr;
                      body := if String.eqb (Method r) "HEAD" then NoBody
                              else FileBytes content |})
    | None =>
        MkRun w [EvServeFile name] (http_Error "404 page not found" StatusNotFound)
    end.

(** ** The handlers *)

(** What the environment decides during one upload: the two readings of
    [time.Now()] and the outcome of the two file operations. *)
Record UploadEnv := {
  now_name : Z;
  now_register : Z;
  create_fails : bool;
  copy_fails_after : option nat
}.

(** During one download: the clock, the outcome of the file operations and
    the content sniffer [http.DetectContentType]. *)
Record DownloadEnv := {
  now : Z;
  open_fails : bool;
  stat_fails : bool;
  DetectContentType : list byte -> string
}.

Definition uploadPageHandler : M Outcome :=
  ret (Replied {| status := StatusOK;
                  header := {["Content-Type" := "text/html"]};
                  body := UploadFormPage |}).

Definition uploadHandler (env : UploadEnv) (r : Request) : M Outcome :=
  if negb (String.eqb (Method r) "POST") then
    ret (http_Error "Only POST method is allowed" StatusMethodNotAllowed)
  else
  match ParseMultipartForm (Z.shiftl 10 20) r with
  | None => ret (http_Error "Unable to parse form" StatusBadRequest)
  | Some form =>
  match FormFile form "file" with
  | None => ret (http_Error "Unable to get the file from form" StatusBadRequest)
  | Some (handler_Filename, file) =>
      let fileExtension := Ext handler_Filename in
      let newFileName :=
        Sprintf_s_d_s "simplehost" (Unix (now_name env)) fileExtension in
      do s <- get_server;
      let filePath := Join [storagePath s; newFileName] in
      do created <- os_Create (create_fails env) filePath;
      if negb created then
        ret (http_Error "Unable to create the file on server"
                        StatusInternalServerError)
      else
      do copied <- io_Copy (copy_fails_after env) filePath file;
      if negb copied then
        ret (http_Error "Unable to save the file" StatusInternalServerError)
      else
      let expiryDuration := 60 * Minute in
      do _ <- register newFileName (Add (now_register env) expiryDuration);
      do _ <- AfterFunc expiryDuration newFileName;
      let downloadLink := "/download?file=" +:+ newFileName in
      ret (Replied {| status := StatusOK;
                      header := {["Content-Type" := "text/html"]};
                      body := UploadedPage newFileName downloadLink |})
  end
  end.

Definition downloadHandler (env : DownloadEnv) (r : Request) : M Outcome :=
  let fileName := Get (Query r) "file" in
  if String.eqb fileName "" then
    ret (http_Error "File name is required" StatusBadRequest)
  else
  do s <- get_server;
  let absent_or_expired :=
    match files s !! fileName with
    | None => true
    | Some expiryTime => After (now env) expiryTime
    end in
  if absent_or_expired then
    ret (http_Error "File not found or expired" StatusNotFound)
  else
  let filePath := Join [storagePath s; fileName] in
  do opened <- os_Open (open_fails env) filePath;
  if negb opened then ret (http_Error "File not found" StatusNotFound)
  else
  do fileStat <- file_Stat (stat_fails env) filePath;
  let contentType :=
    match fileStat with
    | Some size => DetectContentType env (make_bytes size)
    | None => "application/octet-stream"
    end in
  match fileStat with
  | None => ret Panicked
  | Some size =>
      let hdr :=
        <["Content-Length" := pretty size]>
          (<["Content-Type" := contentType]>
             {["Content-Disposition" :=
                 "attachment; filename=" +:+ dquote +:+ fileName +:+ dquote]}) in
      http_ServeFile r hdr filePath
  end.

Definition deleteFile (remove_fails : bool) (fileName : string) : M unit :=
  do s <- get_server;
  let filePath := Join [storagePath s; fileName] in
  do removed <- os_Remove remove_fails filePath;
  if negb removed then emit EvPrintDeleteError
  else
  do _ <- unregister fileName;
  emit (EvPrintDeleted fileName).

(** The closure registered for [/upload] in [main]: a handler that writes
    nothing leaves the default empty 200 response. *)
Definition upload_route (env : UploadEnv) (r : Request) : M Outcome :=
  if String.eqb (Method r) "GET" then
    ret (http_Error "Route Doesn't Exist :/" StatusNotFound)
  else if String.eqb (Method r) "POST" then uploadHandler env r
  else ret (Replied {| status := StatusOK; header := ∅; body := NoBody |}).

(** ** The service as a transition system

    One step is one handler run to completion, or one pending timer
    firing and running [deleteFile]. *)
Inductive step : World -> World -> Prop :=
| step_page w :
    step w (world_after (uploadPageHandler w))
| step_upload env r w :
    step w (world_after (uploadHandler env r w))
| step_upload_route env r w :
    step w (world_after (upload_route env r w))
| step_download env r w :
    step w (world_after (downloadHandler env r w))
| step_timer remove_fails d name before after w :
    timers w = before ++ (d, name) :: after ->
    step w (world_after
              (deleteFile remove_fails name (set_timers (before ++ after) w))).

(** [main]: a fresh server over whatever the storage directory holds. *)
Definition initial (root : string) (d0 : gmap string (list byte)) : World :=
  {| server := NewServer root; disk := d0; timers := [] |}.

Definition reachable (root : string) (d0 : gmap string (list byte)) (w : World)
  : Prop :=
  rtc step (initial root d0) w.

(** ** Vocabulary of the properties *)

Definition plain_char (c : ascii) : bool :=
  negb (Ascii.eqb c dot) && negb (IsPathSeparator c).

(** The shape of what [Ext] returns: nothing, or a dot followed by
    characters that are neither dots nor separators. *)
Definition extension_shaped (ext : string) : Prop :=
  ext = "" \/
  exists rest, ext = String dot rest /\ forallb plain_char (chars rest) = true.

(** A name as [uploadHandler] generates it. *)
Definition generated (key : string) : Prop :=
  exists (t : Z) (ext : string),
    key = "simplehost-" +:+ pretty t +:+ ext /\ extension_shaped ext.

Definition is_digit (c : ascii) : bool :=
  match Ascii.is_nat c with Some _ => true | None => false end.

(** Elements as [Clean] keeps them on its stack. *)
Definition no_sep (e : list ascii) : bool :=
  forallb (fun c => negb (IsPathSeparator c)) e.

Definition kept_element (e : list ascii) : bool :=
  negb (is_empty e) && negb (is_dot e) && no_sep e.

(** A single path element that names an entry of its directory. *)
Definition is_plain_element (name : string) : bool :=
  negb (String.eqb name "") && negb (String.eqb name ".")
  && negb (String.eqb name "..") && negb (Contains name "/").

(** The path of the entry [name] of the cleaned directory [dir]. *)
Definition child_of (dir name : string) : string :=
  if String.eqb dir "." then name
  else if String.eqb dir "/" then "/" +:+ name
  else dir +:+ "/" +:+ name.

(** [path] names an entry directly inside the storage root. *)
Definition inside_root (root path : string) : Prop :=
  exists name, is_plain_element name = true /\ path = child_of (Clean root) name.

(** The path an effect hands to the file system. *)
Definition event_path (e : Event) : option string :=
  match e with
  | EvCreate p _ | EvCopy p _ _ | EvOpen p _ | EvStat p _
  | EvServeFile p | EvRemove p _ => Some p
  | _ => None
  end.

Definition is_publication (e : Event) : bool :=
  match e with
  | EvRegister _ _ | EvAfterFunc _ _ => true
  | _ => false
  end.

(** What holds of every key of the registry. *)
Definition registry_key_ok (root key : string) : Prop :=
  generated key
  /\ Contains key "/" = false
  /\ Contains key ".." = false
  /\ inside_root root (Join [root; key]).

(** The world and the effects of an upload that goes through. *)
Definition uploaded (env : UploadEnv) (w : World) (fname : string)
    (content : list byte) : Run Outcome :=
  let name := Sprintf_s_d_s "simplehost" (Unix (now_name env)) (Ext fname) in
  let path := Join [storagePath (server w); name] in
  let expiry := Add (now_register env) (60 * Minute) in
  MkRun
    {| server := {| storagePath := storagePath (server w);
                    files := <[name := expiry]> (files (server w)) |};
       disk := <[path := content]> (<[path := []]> (disk w));
       timers := timers w ++ [(60 * Minute, name)] |}
    [EvCreate path true; EvCopy path content true;
     EvRegister name expiry; EvAfterFunc (60 * Minute) name]
    (Replied {| status := StatusOK;
                header := {["Content-Type" := "text/html"]};
                body := UploadedPage name ("/download?file=" +:+ name) |}).

(** ** Sample inputs *)

Definition sample_world : World := initial "./uploads" ∅.

Definition sample_upload : Request :=
  {| Method := "POST"; Query := [];
     Payload := Multipart [FilePart "file" "report.pdf" [x61; x62; x63]] |}.

Definition sample_upload_env : UploadEnv :=
  {| now_name := 1700000000 * Second;
     now_register := 1700000000 * Second + 7;
     create_fails := false;
     copy_fails_after := None |}.

Definition sample_uploaded : World :=
  world_after (uploadHandler sample_upload_env sample_upload sample_world).

(** A second world, whose file has the same size and other bytes. *)
Definition sample_upload_other : Request :=
  {| Method := "POST"; Query := [];
     Payload := Multipart [FilePart "file" "report.pdf" [x78; x79; x7a]] |}.

Definition sample_uploaded_other : World :=
  world_after (uploadHandler sample_upload_env sample_upload_other sample_world).

(** A file part one byte over 10 MiB. *)
Definition oversized_content : list byte :=
  repeat x00 (Z.to_nat (Z.shiftl 10 20 + 1)).

Definition oversized_upload : Request :=
  {| Method := "POST"; Query := [];
     Payload := Multipart [FilePart "file" "big.bin" oversized_content] |}.

Definition sample_expiry : Z := 1700000000 * Second + 7 + 60 * Minute.

(** A sniffer that answers as [http.DetectContentType] does on buffers of
    zero bytes. *)
Definition sample_sniffer (data : list byte) : string :=
  match data with
  | [] => "text/plain; charset=utf-8"
  | _ => "application/octet-stream"
  end.

Definition sample_download_env (t : Z) : DownloadEnv :=
  {| now := t; open_fails := false; stat_fails := false;
     DetectContentType := sample_sniffer |}.

Definition sample_download (name : string) : Request :=
  {| Method := "GET"; Query := [("file", name)]; Payload := NotMultipart |}.

(** ** Invariant of the running service *)

(** A pending timer as [uploadHandler] sets it: one hour, for a generated
    name. *)
Definition timer_ok (t : Z * string) : Prop :=
  t.1 = 60 * Minute /\ generated t.2.

(** Registered names are generated, so are the names of the pending
    timers, and every registered name has its file on disk. *)
Definition service_invariant (w : World) : Prop :=
  map_Forall (fun key _ => generated key) (files (server w))
  /\ Forall timer_ok (timers w)
  /\ map_Forall
       (fun key _ => is_Some (disk w !! Join [storagePath (server w); key]))
       (files (server w)).

(** ** More sample inputs *)

(** An upload whose write fails after two bytes. *)
Definition sample_failing_copy : UploadEnv :=
  {| now_name := 1700000000 * Second;
     now_register := 1700000000 * Second + 7;
     create_fails := false;
     copy_fails_after := Some 2%nat |}.

(** An upload later in the same second. *)
Definition sample_upload_env_later : UploadEnv :=
  {| now_name := 1700000000 * Second + 500;
     now_register := 1700000000 * Second + 900;
     create_fails := false;
     copy_fails_after := None |}.

(** An upload one second later. *)
Definition sample_upload_env_next : UploadEnv :=
  {| now_name := 1700000001 * Second;
     now_register := 1700000001 * Second + 7;
     create_fails := false;
     copy_fails_after := None |}.

(** A form that carries a value and a file under another field name. *)
Definition sample_upload_no_file : Request :=
  {| Method := "POST"; Query := [];
     Payload := Multipart [ValuePart "file" "abc";
                           FilePart "attachment" "a.txt" [x61]] |}.

(** The world after the sample upload and a second one in the same
    second. *)
Definition sample_uploaded_twice : World :=
  world_after (uploadHandler sample_upload_env_later sample_upload_other
                 sample_uploaded).

(** The world after the sample upload and its expiry. *)
Definition sample_expired : World :=
  world_after (deleteFile false "simplehost-1700000000.pdf"
                 (set_timers [] sample_uploaded)).

(** ** Fetching a link

    What the server makes of the request target of a GET: the target is
    cut at its first [?] and [r.URL.Query()] parses what follows with
    [url.ParseQuery], whose errors it drops. *)

(** [strings.Cut] at a character: what precedes its first occurrence and
    what follows it (nothing, when it does not occur). *)
Fixpoint cut_at (c : ascii) (s : list ascii) : list ascii * list ascii :=
  match s with
  | [] => ([], [])
  | x :: rest =>
      if Ascii.eqb x c then ([], rest)
      else let (before, after) := cut_at c rest in (x :: before, after)
  end.

(** The pieces between the occurrences of a character. *)
Fixpoint split_on (c : ascii) (s : list ascii) : list (list ascii) :=
  match s with
  | [] => [[]]
  | x :: rest =>
      if Ascii.eqb x c then [] :: split_on c rest
      else match split_on c rest with
           | piece :: pieces => (x :: piece) :: pieces
           | [] => [[x]]
           end
  end.

Definition ishex (c : ascii) : bool :=
  let n := N_of_ascii c in
  ((48 <=? n) && (n <=? 57) || (97 <=? n) && (n <=? 102)
   || (65 <=? n) && (n <=? 70))%N.

Definition unhex (c : ascii) : N :=
  let n := N_of_ascii c in
  (if (48 <=? n) && (n <=? 57) then n - 48
   else if (97 <=? n) && (n <=? 102) then n - 97 + 10
   else if (65 <=? n) && (n <=? 70) then n - 65 + 10
   else 0)%N.

(** [url.QueryUnescape]: [%XX] is the byte of that hexadecimal value, [+]
    is a space; a [%] not followed by two hexadecimal digits is an
    error. *)
Fixpoint unescape (s : list ascii) : option (list ascii) :=
  match s with
  | [] => Some []
  | c :: rest =>
      if Ascii.eqb c "%" then
        match rest with
        | a :: b :: rest' =>
            if ishex a && ishex b then
              cons (ascii_of_N (16 * unhex a + unhex b)) <$> unescape rest'
            else None
        | _ => None
        end
      else if Ascii.eqb c "+" then cons " "%char <$> unescape rest
      else cons c <$> unescape rest
  end.

Definition QueryUnescape (s : list ascii) : option string :=
  text <$> unescape s.

(** One [key=value] piece of a query: dropped when it holds a semicolon,
    when it is empty, or when its key or value does not unescape. *)
Definition parse_pair (piece : list ascii) : option (string * string) :=
  if contains_chars [";"%char] piece then None
  else if is_empty piece then None
  else
    let (key, value) := cut_at "=" piece in
    match QueryUnescape key, QueryUnescape value with
    | Some k, Some v => Some (k, v)
    | _, _ => None
    end.

(** [url.ParseQuery], the pairs in the order of the query. *)
Definition ParseQuery (query : string) : list (string * string) :=
  omap parse_pair (split_on "&" (chars query)).

(** The GET of a request target. *)
Definition fetch (target : string) : Request :=
  {| Method := "GET";
     Query := ParseQuery (text (cut_at "?" (chars target)).2);
     Payload := NotMultipart |}.

(** An upload of a file named [main.c++]. *)
Definition sample_upload_cpp : Request :=
  {| Method := "POST"; Query := [];
     Payload := Multipart [FilePart "file" "main.c++" [x61; x62; x63]] |}.

(** * Properties *)

(** Go's own test table for [Clean], and the cases of [Ext]. *)
Example Clean_table :
  map Clean ["abc"; "abc/def"; "."; ".."; "../.."; "../../abc"; "/abc"; "/";
             ""; "abc/"; "./"; "../"; "../../"; "/abc/";
             "abc//def//ghi"; "abc//"; "abc/./def"; "/./abc/def"; "abc/.";
             "abc/def/ghi/../jkl"; "abc/def/../ghi/../jkl"; "abc/def/..";
             "abc/def/../.."; "/abc/def/../.."; "abc/def/../../..";
             "/abc/def/../../.."; "abc/def/../../../ghi/jkl/../../../mno";
             "/../abc"; "a/../b:/../../c";
             "abc/./../def"; "abc//./../def"; "abc/../../././../def"; "//abc"]
  = ["abc"; "abc/def"; "."; ".."; "../.."; "../../abc"; "/abc"; "/";
     "."; "abc"; "."; ".."; "../.."; "/abc";
     "abc/def/ghi"; "abc"; "abc/def"; "/abc/def"; "abc";
     "abc/def/jkl"; "abc/jkl"; "abc";
     "."; "/"; "..";
     "/"; "../../mno";
     "/abc"; "../c";
     "def"; "def"; "../../def"; "/abc"].
Proof. reflexivity. Qed.

Example Join_table :
  map Join [["a"; "b"]; ["a"; ""]; [""; "b"]; [""; ""]; ["/"; "a"]; ["a/"; "b"];
            ["./uploads"; "simplehost-1700000000.pdf"];
            ["./uploads"; "../main.go"]; ["a"; "/b"]]
  = ["a/b"; "a"; "b"; ""; "/a"; "a/b";
     "uploads/simplehost-1700000000.pdf"; "main.go"; "a/b"].
Proof. reflexivity. Qed.

Example Ext_table :
  map Ext ["report.pdf"; "path.go"; "path.pb.go"; "a.dir/b"; "a.dir/b.go";
           "a.dir/"; "noext"; "trailing."; ".bashrc"; ""; "a..b"; "x.tar.gz"]
  = [".pdf"; ".go"; ".go"; ""; ".go"; ""; ""; "."; ".bashrc"; ""; ".b"; ".gz"].
Proof. reflexivity. Qed.

Example Sprintf_table :
  Sprintf_s_d_s "simplehost" 1700000000 ".pdf" = "simplehost-1700000000.pdf"
  /\ Sprintf_s_d_s "simplehost" 0 "" = "simplehost-0"
  /\ Sprintf_s_d_s "simplehost" (-5) ".x" = "simplehost--5.x".
Proof. repeat split; reflexivity. Qed.

Example sample_run :
  returned (uploadHandler sample_upload_env sample_upload sample_world)
  = Replied {| status := 200;
               header := {["Content-Type" := "text/html"]};
               body := UploadedPage "simplehost-1700000000.pdf"
                         "/download?file=simplehost-1700000000.pdf" |}
  /\ disk sample_uploaded !! "uploads/simplehost-1700000000.pdf"
     = Some [x61; x62; x63]
  /\ files (server sample_uploaded) !! "simplehost-1700000000.pdf"
     = Some sample_expiry
  /\ timers sample_uploaded = [(60 * Minute, "simplehost-1700000000.pdf")].
Proof. repeat split; vm_compute; reflexivity. Qed.

(** ** Characters of strings *)

Lemma chars_app (a b : string) : chars (a +:+ b) = chars a ++ chars b.
Proof.
  induction a as [|c a IH]; [reflexivity|].
  change (String c a +:+ b) with (String c (a +:+ b)).
  simpl. by rewrite IH.
Qed.

Lemma text_app (a b : list ascii) : text (a ++ b) = text a +:+ text b.
Proof.
  induction a as [|c a IH]; [reflexivity|].
  simpl. rewrite IH. reflexivity.
Qed.

Lemma text_chars (s : string) : text (chars s) = s.
Proof. apply string_of_list_ascii_of_string. Qed.

Lemma chars_text (l : list ascii) : chars (text l) = l.
Proof. apply list_ascii_of_string_of_list_ascii. Qed.

Lemma chars_inj (a b : string) : chars a = chars b -> a = b.
Proof. intros H. rewrite <- (text_chars a), <- (text_chars b). by rewrite H. Qed.

Lemma plain_char_spec c : plain_char c = true <-> c <> dot /\ c <> sep.
Proof.
  unfold plain_char, IsPathSeparator.
  rewrite andb_true_iff, !negb_true_iff, !Ascii.eqb_neq. tauto.
Qed.

(** ** [Ext] *)

(** Scanning over plain characters moves them to the suffix. *)
Lemma ext_loop_plain (l before suffix : list ascii) :
  forallb plain_char l = true ->
  ext_loop (l ++ before) suffix = ext_loop before (rev l ++ suffix).
Proof.
  revert suffix. induction l as [|c l IH]; intros suffix Hl; [reflexivity|].
  simpl in Hl. apply andb_true_iff in Hl as [Hc Hl].
  apply plain_char_spec in Hc as [Hd Hs].
  simpl. unfold IsPathSeparator.
  apply Ascii.eqb_neq in Hd, Hs. rewrite Hs, Hd.
  rewrite IH by done. by rewrite <- app_assoc.
Qed.

(** The loop returns nothing, or a dot and the plain characters it
    walked over, in front of the suffix it started from. *)
Lemma ext_loop_shape (before suffix : list ascii) :
  ext_loop before suffix = []
  \/ exists mid earlier,
       ext_loop before suffix = dot :: mid ++ suffix
       /\ forallb plain_char mid = true
       /\ before = rev mid ++ dot :: earlier.
Proof.
  revert suffix. induction before as [|c before IH]; intros suffix; [by left|].
  simpl. unfold IsPathSeparator.
  destruct (Ascii.eqb c sep) eqn:Hs; [by left|].
  destruct (Ascii.eqb c dot) eqn:Hd.
  - apply Ascii.eqb_eq in Hd as ->. right. by exists [], before.
  - destruct (IH (c :: suffix)) as [->|(mid & earlier & -> & Hmid & ->)]; [by left|].
    right. exists (mid ++ [c]), earlier. split; [by rewrite <- app_assoc|]. split.
    + rewrite forallb_app, Hmid. simpl. unfold plain_char, IsPathSeparator.
      by rewrite Hs, Hd.
    + rewrite rev_app_distr. reflexivity.
Qed.

(** A name without any dot has no extension. *)
Lemma ext_loop_no_dot (before suffix : list ascii) :
  forallb (fun c => negb (Ascii.eqb c dot)) before = true ->
  ext_loop before suffix = [].
Proof.
  revert suffix. induction before as [|c before IH]; intros suffix H; [done|].
  simpl in *. apply andb_true_iff in H as [Hc H].
  destruct (IsPathSeparator c); [done|].
  apply negb_true_iff in Hc. rewrite Hc. by apply IH.
Qed.

Lemma Ext_shaped (path : string) : extension_shaped (Ext path).
Proof.
  unfold Ext.
  destruct (ext_loop_shape (rev (chars path)) [])
    as [->|(mid & earlier & -> & Hmid & _)]; [by left|].
  right. exists (text mid). rewrite app_nil_r, chars_text. by split.
Qed.

(** The extension is a suffix of the name. *)
Lemma Ext_suffix (path : string) : exists front, path = front +:+ Ext path.
Proof.
  unfold Ext.
  destruct (ext_loop_shape (rev (chars path)) [])
    as [->|(mid & earlier & -> & Hmid & Hrev)].
  - exists path. apply chars_inj. rewrite chars_app. simpl. by rewrite app_nil_r.
  - exists (text (rev earlier)). apply chars_inj.
    rewrite chars_app, !chars_text, app_nil_r.
    rewrite <- (rev_involutive (chars path)), Hrev.
    rewrite rev_app_distr, rev_involutive. simpl. by rewrite <- app_assoc.
Qed.

Lemma contains_char_false (c : ascii) (l : list ascii) :
  contains_chars [c] l = false <->
  forallb (fun x => negb (Ascii.eqb x c)) l = true.
Proof.
  induction l as [|a l IH]; [done|].
  simpl. rewrite orb_false_iff, andb_true_iff, IH, andb_true_r.
  rewrite negb_true_iff, (Ascii.eqb_sym c a). tauto.
Qed.

Lemma Ext_no_dot (path : string) :
  Contains path "." = false -> Ext path = "".
Proof.
  unfold Contains, Ext. intros H%contains_char_false.
  rewrite ext_loop_no_dot; [done|].
  rewrite forallb_forall in *. intros c Hc. apply H. by apply in_rev.
Qed.

(** Appending an extension-shaped string to a name without dots gives a
    name with exactly that extension. *)
Lemma Ext_app (front ext : string) :
  forallb (fun c => negb (Ascii.eqb c dot)) (chars front) = true ->
  extension_shaped ext ->
  Ext (front +:+ ext) = ext.
Proof.
  intros Hfront [->|(rest & -> & Hrest)]; unfold Ext; rewrite chars_app.
  - simpl. rewrite app_nil_r, ext_loop_no_dot; [done|].
    rewrite forallb_forall in *. intros c Hc. apply Hfront. by apply in_rev.
  - simpl. rewrite rev_app_distr. simpl. rewrite <- !app_assoc.
    rewrite ext_loop_plain by (rewrite forallb_forall in *; intros c Hc;
                               apply Hrest; by apply in_rev).
    simpl. unfold IsPathSeparator. simpl.
    rewrite rev_involutive, app_nil_r. by rewrite text_chars.
Qed.

(** ** Decimal numerals *)

Lemma pretty_N_go_forall (P : ascii -> bool) (x : N) (s : string) :
  (forall d, P (pretty_N_char d) = true) ->
  forallb P (chars s) = true ->
  forallb P (chars (pretty_N_go x s)) = true.
Proof.
  intros HP. revert s. induction (N.lt_wf_0 x) as [x _ IH]; intros s Hs.
  destruct (decide (x = 0)%N) as [->|Hx].
  - by rewrite pretty_N_go_0.
  - rewrite pretty_N_go_step by lia. apply IH.
    + apply N.div_lt; lia.
    + cbn [list_ascii_of_string forallb]. by rewrite HP, Hs.
Qed.

Lemma pretty_N_forall (P : ascii -> bool) (x : N) :
  (forall d, P (pretty_N_char d) = true) ->
  forallb P (chars (pretty x)) = true.
Proof.
  intros HP. unfold pretty, pretty_N. case_decide.
  - change (chars "0") with [pretty_N_char 0].
    cbn [forallb]. by rewrite HP.
  - by apply pretty_N_go_forall.
Qed.

Lemma pretty_N_char_plain (d : N) : plain_char (pretty_N_char d) = true.
Proof. unfold pretty_N_char. by repeat case_match. Qed.

Lemma pretty_N_char_digit (d : N) : is_digit (pretty_N_char d) = true.
Proof. unfold pretty_N_char. by repeat case_match. Qed.

Lemma pretty_Z_plain (t : Z) : forallb plain_char (chars (pretty t)) = true.
Proof.
  destruct t as [|p|p]; [done|apply pretty_N_forall, pretty_N_char_plain|].
  change (pretty (Z.neg p)) with ("-" +:+ pretty (N.pos p)).
  rewrite chars_app, forallb_app, pretty_N_forall; [done|].
  apply pretty_N_char_plain.
Qed.

(** The numeral of a non-negative integer consists of decimal digits. *)
Lemma pretty_Z_digits (t : Z) :
  0 <= t -> forallb is_digit (chars (pretty t)) = true.
Proof.
  destruct t as [|p|p]; [done| |lia]. intros _.
  apply (pretty_N_forall is_digit (N.pos p)), pretty_N_char_digit.
Qed.

(** ** Generated names *)

(** The characters of a generated name: an [s], plain characters, and an
    extension-shaped tail. *)
Lemma generated_chars (key : string) :
  generated key ->
  exists front tail,
    chars key = "s"%char :: front ++ tail
    /\ forallb plain_char front = true
    /\ (tail = [] \/ exists r, tail = dot :: r /\ forallb plain_char r = true).
Proof.
  intros (t & ext & -> & Hext).
  exists (chars "implehost-" ++ chars (pretty t)), (chars ext).
  split; [|split].
  - rewrite !chars_app. reflexivity.
  - rewrite forallb_app, pretty_Z_plain. done.
  - destruct Hext as [->|(rest & -> & Hrest)]; [by left|].
    right. by exists (chars rest).
Qed.

Lemma contains_dotdot_plain (l tail : list ascii) :
  forallb plain_char l = true ->
  contains_chars [dot; dot] (l ++ tail) = contains_chars [dot; dot] tail.
Proof.
  induction l as [|c l IH]; intros Hl; [done|].
  simpl in Hl. apply andb_true_iff in Hl as [Hc Hl].
  apply plain_char_spec in Hc as [Hd _]. apply Ascii.eqb_neq in Hd.
  cbn [app contains_chars has_prefix].
  rewrite (Ascii.eqb_sym dot c), Hd. by apply IH.
Qed.

Lemma generated_no_sep (key : string) :
  generated key -> Contains key "/" = false.
Proof.
  intros (front & tail & Hkey & Hfront & Htail)%generated_chars.
  unfold Contains. rewrite Hkey. change (chars "/") with [sep].
  apply contains_char_false.
  assert (Hweak : forall l, forallb plain_char l = true ->
                    forallb (fun x => negb (Ascii.eqb x sep)) l = true).
  { intros l Hl. rewrite forallb_forall in *. intros c Hc.
    apply Hl, plain_char_spec in Hc as [_ Hc]. by apply negb_true_iff, Ascii.eqb_neq. }
  change ("s"%char :: front ++ tail) with (["s"%char] ++ front ++ tail).
  rewrite !forallb_app, (Hweak _ Hfront).
  destruct Htail as [->|(r & -> & Hr)]; [done|].
  change (dot :: r) with ([dot] ++ r). by rewrite forallb_app, (Hweak _ Hr).
Qed.

Lemma generated_no_dotdot (key : string) :
  generated key -> Contains key ".." = false.
Proof.
  intros (front & tail & Hkey & Hfront & Htail)%generated_chars.
  unfold Contains. rewrite Hkey. change (chars "..") with [dot; dot].
  change ("s"%char :: front ++ tail) with (("s"%char :: front) ++ tail).
  rewrite contains_dotdot_plain by (cbn [forallb]; by rewrite Hfront).
  destruct Htail as [->|(r & -> & Hr)]; [done|].
  change (dot :: r) with ([dot] ++ r).
  assert (Hr' : contains_chars [dot; dot] r = false).
  { rewrite <- (app_nil_r r). by rewrite contains_dotdot_plain. }
  cbn [app contains_chars]. rewrite Hr', orb_false_r.
  destruct r as [|c r]; [done|].
  cbn [forallb] in Hr. apply andb_true_iff in Hr as [Hc _].
  apply plain_char_spec in Hc as [Hd _]. apply Ascii.eqb_neq in Hd.
  cbn [has_prefix]. rewrite (Ascii.eqb_sym dot c), Hd. by rewrite andb_false_r.
Qed.

Lemma generated_plain_element (key : string) :
  generated key -> is_plain_element key = true.
Proof.
  intros Hgen. unfold is_plain_element.
  rewrite (generated_no_sep key Hgen).
  destruct (generated_chars key Hgen) as (front & tail & Hkey & _).
  assert (Hne : forall s, chars s <> chars key -> String.eqb key s = false).
  { intros s Hs. apply String.eqb_neq. intros ->. done. }
  rewrite !Hne; [done|rewrite Hkey; discriminate..].
Qed.

Lemma generated_intro (t : Z) (Filename : string) :
  generated (Sprintf_s_d_s "simplehost" t (Ext Filename)).
Proof. exists t, (Ext Filename). split; [reflexivity|apply Ext_shaped]. Qed.

(** ** [Clean] and [Join] *)

Lemma elements_nonempty (s : list ascii) : elements s <> [].
Proof.
  induction s as [|c s IH]; [done|].
  simpl. destruct (IsPathSeparator c); [done|]. by destruct (elements s).
Qed.

Lemma elements_app_sep (a b : list ascii) :
  elements (a ++ sep :: b) = elements a ++ elements b.
Proof.
  induction a as [|c a IH].
  - reflexivity.
  - cbn [app elements]. rewrite IH.
    destruct (IsPathSeparator c); [done|].
    pose proof (elements_nonempty a). by destruct (elements a).
Qed.

Lemma elements_single (s : list ascii) : no_sep s = true -> elements s = [s].
Proof.
  induction s as [|c s IH]; intros H; [done|].
  cbn [no_sep forallb] in H. apply andb_true_iff in H as [Hc Hs].
  apply negb_true_iff in Hc. cbn [elements]. rewrite Hc, IH; done.
Qed.

Lemma elements_no_sep (s : list ascii) :
  Forall (fun e => no_sep e = true) (elements s).
Proof.
  induction s as [|c s IH]; [by repeat constructor|].
  cbn [elements]. destruct (IsPathSeparator c) eqn:Hc; [by constructor|].
  destruct (elements s) as [|e es]; [by repeat constructor; cbn; rewrite Hc|].
  inversion IH; subst. constructor; [|done].
  cbn [no_sep forallb]. by rewrite Hc.
Qed.

Lemma is_dotdot_kept (e : list ascii) :
  is_empty e = false -> is_dot e = false -> no_sep e = true ->
  kept_element e = true.
Proof. intros He Hd Hs. unfold kept_element. by rewrite He, Hd, Hs. Qed.

Lemma clean_step_kept (rooted : bool) (st : cleaned) (e : list ascii) :
  no_sep e = true ->
  Forall (fun x => kept_element x = true) (stack st) ->
  Forall (fun x => kept_element x = true) (stack (clean_step rooted st e)).
Proof.
  intros He Hst. unfold clean_step.
  destruct (is_empty e) eqn:Hempty; [done|].
  destruct (is_dot e) eqn:Hdot; [done|]. cbn [orb].
  destruct (is_dotdot e).
  - destruct (stack st) as [|top below] eqn:Hstack.
    + destruct rooted; [by rewrite Hstack|by constructor].
    + by inversion Hst.
  - constructor; [by apply is_dotdot_kept|done].
Qed.

Lemma fold_clean_step_kept (rooted : bool) (es : list (list ascii)) (st : cleaned) :
  Forall (fun e => no_sep e = true) es ->
  Forall (fun x => kept_element x = true) (stack st) ->
  Forall (fun x => kept_element x = true)
         (stack (fold_left (clean_step rooted) es st)).
Proof.
  revert st. induction es as [|e es IH]; intros st Hes Hst; [done|].
  inversion Hes; subst. cbn [fold_left]. apply IH; [done|].
  by apply clean_step_kept.
Qed.

Lemma resolve_kept (s : list ascii) :
  Forall (fun x => kept_element x = true) (stack (resolve s)).
Proof.
  apply fold_clean_step_kept; [apply elements_no_sep|by constructor].
Qed.

Lemma join_elements_snoc (es : list (list ascii)) (k : list ascii) :
  es <> [] -> join_elements (es ++ [k]) = join_elements es ++ sep :: k.
Proof.
  induction es as [|e es IH]; [done|]. intros _.
  destruct es as [|e' es]; [reflexivity|].
  change (join_elements ((e :: e' :: es) ++ [k]))
    with (e ++ sep :: join_elements ((e' :: es) ++ [k])).
  rewrite IH by done. cbn [join_elements]. by rewrite <- app_assoc.
Qed.

(** A joined list of kept elements is not empty, not [.] and not [/]. *)
Lemma join_elements_proper (e : list ascii) (es : list (list ascii)) :
  is_empty e = false -> is_dot e = false -> no_sep e = true ->
  join_elements (e :: es) <> [] /\ join_elements (e :: es) <> [dot]
  /\ join_elements (e :: es) <> [sep].
Proof.
  intros He Hd Hs. destruct es as [|e' es]; cbn [join_elements].
  - repeat split; intros ->; done.
  - destruct e as [|c e]; [done|]. repeat split; intros H; by destruct e.
Qed.

Lemma dotdot_kept : kept_element [dot; dot] = true.
Proof. reflexivity. Qed.

Lemma comps_kept (st : cleaned) :
  Forall (fun x => kept_element x = true) (stack st) ->
  Forall (fun x => kept_element x = true)
         (repeat [dot; dot] (ups st) ++ rev (stack st)).
Proof.
  intros Hst. apply Forall_app. split.
  - induction (ups st); constructor; [apply dotdot_kept|done].
  - by apply Forall_rev.
Qed.

Lemma kept_element_inv (e : list ascii) :
  kept_element e = true ->
  is_empty e = false /\ is_dot e = false /\ no_sep e = true.
Proof.
  unfold kept_element. rewrite !andb_true_iff, !negb_true_iff. tauto.
Qed.

Lemma text_neq (l : list ascii) (s : string) :
  l <> chars s -> String.eqb (text l) s = false.
Proof.
  intros H. apply String.eqb_neq. intros <-. by rewrite chars_text in H.
Qed.

Lemma child_of_proper (dir k : list ascii) :
  dir <> [dot] -> dir <> [sep] ->
  child_of (text dir) (text k) = text (dir ++ sep :: k).
Proof.
  intros Hd Hs. unfold child_of.
  rewrite !text_neq by done. by rewrite text_app.
Qed.

(** Pushing one more element onto a cleaned path renders as the entry of
    that name in the directory the path rendered to. *)
Lemma render_push (rooted : bool) (st : cleaned) (k : list ascii) :
  Forall (fun x => kept_element x = true) (stack st) ->
  text (render rooted {| ups := ups st; stack := k :: stack st |})
  = child_of (text (render rooted st)) (text k).
Proof.
  intros Hst%comps_kept. unfold render. cbn [ups stack rev].
  rewrite app_assoc.
  destruct (repeat [dot; dot] (ups st) ++ rev (stack st)) as [|e es] eqn:Hcomps.
  - by destruct rooted.
  - inversion Hst as [|? ? He _]; subst.
    apply kept_element_inv in He as (He & Hd & Hs).
    destruct (join_elements_proper e es He Hd Hs) as (Hne & Hndot & Hnsep).
    rewrite join_elements_snoc by done.
    destruct rooted.
    + rewrite child_of_proper; [done|done|]. intros [= H]. by apply Hne.
    + change (match (e :: es) ++ [k] with
              | [] => [dot]
              | _ :: _ => join_elements (e :: es) ++ sep :: k
              end) with (join_elements (e :: es) ++ sep :: k).
      by rewrite child_of_proper.
Qed.

Lemma plain_element_chars (key : string) :
  is_plain_element key = true ->
  is_empty (chars key) = false /\ is_dot (chars key) = false
  /\ is_dotdot (chars key) = false /\ no_sep (chars key) = true.
Proof.
  unfold is_plain_element.
  rewrite !andb_true_iff, !negb_true_iff, !String.eqb_neq.
  intros [[[Hne Hnd] Hndd] Hsep].
  assert (Hlit : forall s, key <> s -> chars key <> chars s).
  { intros s Hs Heq. by apply Hs, chars_inj. }
  apply Hlit in Hne, Hnd, Hndd.
  change (chars "") with (@nil ascii) in Hne.
  change (chars ".") with [dot] in Hnd.
  change (chars "..") with [dot; dot] in Hndd.
  repeat split.
  - by destruct (chars key).
  - destruct (chars key) as [|c [|d l]]; try done.
    unfold is_dot. by destruct (Ascii.eqb_spec c dot) as [->|].
  - destruct (chars key) as [|c [|d [|x l]]]; try done.
    unfold is_dotdot.
    destruct (Ascii.eqb_spec c dot) as [->|]; [|done].
    by destruct (Ascii.eqb_spec d dot) as [->|].
  - unfold Contains in Hsep. change (chars "/") with [sep] in Hsep.
    apply contains_char_false in Hsep. unfold no_sep, IsPathSeparator. done.
Qed.

Lemma clean_step_push (rooted : bool) (st : cleaned) (key : string) :
  is_plain_element key = true ->
  clean_step rooted st (chars key)
  = {| ups := ups st; stack := chars key :: stack st |}.
Proof.
  intros (He & Hd & Hdd & _)%plain_element_chars.
  unfold clean_step. by rewrite He, Hd, Hdd.
Qed.

(** The path of a plain element joined to a root is the entry of that
    name in the cleaned root. *)
Lemma Join_child (root key : string) :
  is_plain_element key = true ->
  Join [root; key] = child_of (Clean root) key.
Proof.
  intros Hkey. pose proof (plain_element_chars key Hkey) as (He & _ & _ & Hs).
  unfold Join. destruct (decide (root = "")) as [->|Hroot].
  - destruct (decide (key = "")) as [->|_]; [done|].
    cbn [strings_Join]. unfold Clean at 1, clean_chars, resolve.
    rewrite elements_single by done. cbn [fold_left].
    rewrite clean_step_push by done.
    assert (is_rooted (chars key) = false) as ->.
    { destruct (chars key) as [|c l]; [done|].
      cbn in Hs. apply andb_true_iff in Hs as [Hc _]. by apply negb_true_iff. }
    rewrite (render_push false {| ups := 0; stack := [] |}) by constructor.
    by rewrite text_chars.
  - cbn [strings_Join]. unfold Clean, clean_chars, resolve.
    rewrite !chars_app. change (chars "/" ++ chars key) with (sep :: chars key).
    assert (is_rooted (chars root ++ sep :: chars key) = is_rooted (chars root)) as ->.
    { destruct root; [done|reflexivity]. }
    rewrite elements_app_sep, fold_left_app, elements_single by done.
    cbn [fold_left]. rewrite clean_step_push by done.
    rewrite render_push by apply resolve_kept.
    by rewrite text_chars.
Qed.

Lemma generated_inside_root (root key : string) :
  generated key -> inside_root root (Join [root; key]).
Proof.
  intros Hgen%generated_plain_element. exists key. split; [done|].
  by apply Join_child.
Qed.

Lemma generated_key_ok (root key : string) :
  generated key -> registry_key_ok root key.
Proof.
  intros Hgen. repeat split;
    auto using generated_no_sep, generated_no_dotdot, generated_inside_root.
Qed.

Example traversal_is_outside :
  Join ["./uploads"; "../main.go"] = "main.go"
  /\ ~ inside_root "./uploads" (Join ["./uploads"; "../main.go"]).
Proof.
  split; [reflexivity|]. intros (name & _ & H).
  change (Join ["./uploads"; "../main.go"]) with "main.go" in H.
  change (Clean "./uploads") with "uploads" in H.
  change (child_of "uploads" name) with ("uploads/" +:+ name) in H.
  discriminate H.
Qed.

(** ** The handlers, case by case *)

Ltac refused :=
  left; eexists _, _; split; [|split; [reflexivity|done]]; done.

Lemma uploadHandler_cases (env : UploadEnv) (r : Request) (w : World) :
  (exists msg code,
     code <> StatusOK
     /\ returned (uploadHandler env r w) = http_Error msg code
     /\ server (world_after (uploadHandler env r w)) = server w
     /\ timers (world_after (uploadHandler env r w)) = timers w
     /\ forallb (fun e => negb (is_publication e))
                (effects (uploadHandler env r w)) = true)
  \/ (exists form fname content,
        Method r = "POST"
        /\ ParseMultipartForm (Z.shiftl 10 20) r = Some form
        /\ FormFile form "file" = Some (fname, content)
        /\ create_fails env = false
        /\ copy_fails_after env = None
        /\ uploadHandler env r w = uploaded env w fname content).
Proof.
  unfold uploadHandler.
  destruct (String.eqb (Method r) "POST") eqn:Hm; cbn [negb].
  2: { refused. }
  apply String.eqb_eq in Hm.
  destruct (ParseMultipartForm _ r) as [form|] eqn:Hp.
  2: { refused. }
  destruct (FormFile form "file") as [[fname content]|] eqn:Hf.
  2: { refused. }
  destruct (create_fails env) eqn:Hc.
  { cbv [bind get_server os_Create returned world_after effects ret].
    refused. }
  destruct (copy_fails_after env) as [n|] eqn:Hcp.
  { cbv [bind get_server os_Create io_Copy returned world_after effects ret].
    refused. }
  right. exists form, fname, content. by repeat split.
Qed.

(** The download handler, flattened: what it returns and which effects it
    performs, by the state of the registry and of the disk. *)
Lemma downloadHandler_cases (env : DownloadEnv) (r : Request) (w : World) :
  let name := Get (Query r) "file" in
  let path := Join [storagePath (server w); name] in
  let refusal := MkRun w [] (http_Error "File not found or expired" StatusNotFound) in
  downloadHandler env r w =
  if String.eqb name "" then
    MkRun w [] (http_Error "File name is required" StatusBadRequest)
  else
    match files (server w) !! name with
    | None => refusal
    | Some expiryTime =>
        if After (now env) expiryTime then refusal
        else
          match disk w !! path with
          | None =>
              MkRun w [EvOpen path false] (http_Error "File not found" StatusNotFound)
          | Some content =>
              if open_fails env then
                MkRun w [EvOpen path false]
                      (http_Error "File not found" StatusNotFound)
              else if stat_fails env then
                MkRun w [EvOpen path true; EvStat path false] Panicked
              else
                MkRun w [EvOpen path true; EvStat path true; EvServeFile path]
                  (Replied
                     {| status := StatusOK;
                        header :=
                          <["Content-Length" := pretty (Z.of_nat (length content))]>
                            (<["Content-Type" :=
                                 DetectContentType env
                                   (make_bytes (Z.of_nat (length content)))]>
                               {["Content-Disposition" :=
                                   "attachment; filename=" +:+ dquote +:+ name
                                   +:+ dquote]});
                        body := if String.eqb (Method r) "HEAD" then NoBody
                                else FileBytes content |})
          end
    end.
Proof.
  intros name path refusal. unfold downloadHandler. fold name.
  destruct (String.eqb name ""); [reflexivity|].
  cbv [bind get_server returned world_after effects ret]. fold path.
  destruct (files (server w) !! name) as [expiryTime|]; [|reflexivity].
  destruct (After (now env) expiryTime); [reflexivity|].
  cbv [os_Open file_Stat http_ServeFile].
  destruct (disk w !! path) as [content|] eqn:Hdisk.
  - destruct (open_fails env); [reflexivity|].
    rewrite bool_decide_eq_true_2 by eauto. cbn [negb andb].
    rewrite Hdisk. destruct (stat_fails env); [reflexivity|].
    cbn [app]. rewrite Hdisk. reflexivity.
  - rewrite bool_decide_eq_false_2 by (by intros [? ?]).
    rewrite andb_false_r. reflexivity.
Qed.

Lemma downloadHandler_world (env : DownloadEnv) (r : Request) (w : World) :
  world_after (downloadHandler env r w) = w.
Proof.
  rewrite downloadHandler_cases. by repeat case_match.
Qed.

(** [deleteFile], flattened. *)
Lemma deleteFile_cases (remove_fails : bool) (fileName : string) (w : World) :
  let path := Join [storagePath (server w); fileName] in
  deleteFile remove_fails fileName w =
  match disk w !! path with
  | Some _ =>
      if remove_fails then MkRun w [EvRemove path false; EvPrintDeleteError] tt
      else
        MkRun
          {| server := {| storagePath := storagePath (server w);
                          files := delete fileName (files (server w)) |};
             disk := delete path (disk w);
             timers := timers w |}
          [EvRemove path true; EvUnregister fileName; EvPrintDeleted fileName] tt
  | None => MkRun w [EvRemove path false; EvPrintDeleteError] tt
  end.
Proof.
  intros path. unfold deleteFile.
  cbv [bind get_server os_Remove returned world_after effects]. fold path.
  destruct (disk w !! path); [|reflexivity].
  destruct remove_fails; reflexivity.
Qed.

(** ** The registry only ever holds generated names *)

Lemma Ext_no_sep (path : string) : Contains (Ext path) "/" = false.
Proof.
  unfold Contains. change (chars "/") with [sep]. apply contains_char_false.
  destruct (Ext_shaped path) as [->|(rest & -> & Hrest)]; [done|].
  cbn [list_ascii_of_string forallb]. apply andb_true_iff. split; [done|].
  rewrite forallb_forall in *. intros c Hc.
  apply Hrest, plain_char_spec in Hc as [_ Hc].
  by apply negb_true_iff, Ascii.eqb_neq.
Qed.

Lemma uploadHandler_keeps_generated (env : UploadEnv) (r : Request) (w : World) :
  map_Forall (fun key _ => generated key) (files (server w)) ->
  map_Forall (fun key _ => generated key)
             (files (server (world_after (uploadHandler env r w))))
  /\ storagePath (server (world_after (uploadHandler env r w)))
     = storagePath (server w).
Proof.
  intros Hinv.
  destruct (uploadHandler_cases env r w)
    as [(msg & code & _ & _ & -> & _)
       |(form & fname & content & _ & _ & _ & _ & _ & ->)]; [done|].
  split; [|reflexivity]. cbn [uploaded world_after server files].
  apply map_Forall_insert_2; [apply generated_intro|done].
Qed.

Lemma step_keeps_generated (w w' : World) :
  step w w' ->
  map_Forall (fun key _ => generated key) (files (server w)) ->
  map_Forall (fun key _ => generated key) (files (server w'))
  /\ storagePath (server w') = storagePath (server w).
Proof.
  intros Hstep Hinv. destruct Hstep as [w|env r w|env r w|env r w|fails d name l1 l2 w _].
  - done.
  - by apply uploadHandler_keeps_generated.
  - unfold upload_route. destruct (String.eqb (Method r) "GET"); [done|].
    destruct (String.eqb (Method r) "POST"); [|done].
    by apply uploadHandler_keeps_generated.
  - by rewrite downloadHandler_world.
  - rewrite deleteFile_cases. cbn [set_timers server disk].
    destruct (disk w !! _); [|done]. destruct fails; [done|].
    split; [|reflexivity]. cbn [world_after server files].
    by apply map_Forall_delete.
Qed.

Lemma reachable_generated (root : string) (d0 : gmap string (list byte)) (w : World) :
  reachable root d0 w ->
  map_Forall (fun key _ => generated key) (files (server w))
  /\ storagePath (server w) = root.
Proof.
  unfold reachable. revert w. apply rtc_ind_r.
  - split; [apply map_Forall_empty|reflexivity].
  - intros w1 w2 _ Hstep [IH1 IH2].
    destruct (step_keeps_generated w1 w2 Hstep IH1) as [H1 H2].
    split; [done|congruence].
Qed.

(** C9: in every world the service can reach, every key of the registry
    is "simplehost-" followed by a decimal timestamp and an
    extension-shaped tail, contains no path separator and no ".."
    sequence (an extension never contains a separator), and the path
    joined from the storage root and the key is the entry of that name
    directly inside the cleaned storage root. *)
Theorem registry_keys_stay_inside_root
    (root : string) (d0 : gmap string (list byte)) (w : World) (key : string) :
  reachable root d0 w ->
  is_Some (files (server w) !! key) ->
  storagePath (server w) = root
  /\ (exists (t : Z) (ext : string),
        key = "simplehost-" +:+ pretty t +:+ ext /\ extension_shaped ext)
  /\ Contains key "/" = false
  /\ Contains key ".." = false
  /\ (forall Filename, Contains (Ext Filename) "/" = false)
  /\ Join [storagePath (server w); key] = child_of (Clean root) key
  /\ inside_root root (Join [storagePath (server w); key]).
Proof.
  intros [Hinv Hroot]%reachable_generated [expiry Hkey].
  pose proof (Hinv key expiry Hkey) as Hgen.
  destruct (generated_key_ok root key Hgen) as (_ & Hsep & Hdd & Hin).
  rewrite Hroot. repeat split; try done.
  - apply Ext_no_sep.
  - by apply Join_child, generated_plain_element.
Qed.

Lemma sample_uploaded_reachable : reachable "./uploads" ∅ sample_uploaded.
Proof. apply rtc_once. apply step_upload. Qed.

Lemma registry_keys_stay_inside_root_witness :
  is_Some (files (server sample_uploaded) !! "simplehost-1700000000.pdf")
  /\ Join [storagePath (server sample_uploaded); "simplehost-1700000000.pdf"]
     = child_of (Clean "./uploads") "simplehost-1700000000.pdf".
Proof.
  assert (H : is_Some (files (server sample_uploaded) !! "simplehost-1700000000.pdf")).
  { exists sample_expiry. vm_compute. reflexivity. }
  split; [exact H|].
  apply (registry_keys_stay_inside_root "./uploads" ∅ sample_uploaded
           "simplehost-1700000000.pdf" sample_uploaded_reachable H).
Defined.

(** ** Downloads *)

(** C3: in every world the service can reach, a download whose [file]
    value contains a path separator or a ".." sequence is refused with
    404 by the registry lookup, before any storage path is built and
    without touching the file system; and every path a download hands to
    the file system is the entry of a registered name directly inside
    the storage root. *)
Theorem download_stays_inside_root
    (root : string) (d0 : gmap string (list byte)) (w : World)
    (env : DownloadEnv) (r : Request) :
  reachable root d0 w ->
  (Contains (Get (Query r) "file") "/" = true
   \/ Contains (Get (Query r) "file") ".." = true ->
   downloadHandler env r w
   = MkRun w [] (http_Error "File not found or expired" StatusNotFound))
  /\ (forall e path,
        In e (effects (downloadHandler env r w)) ->
        event_path e = Some path ->
        inside_root root path).
Proof.
  intros [Hinv Hroot]%reachable_generated.
  rewrite downloadHandler_cases.
  set (name := Get (Query r) "file").
  assert (Hpath : forall expiry, files (server w) !! name = Some expiry ->
            Contains name "/" = false /\ Contains name ".." = false
            /\ inside_root root (Join [storagePath (server w); name])).
  { intros expiry Hkey. pose proof (Hinv name expiry Hkey) as Hgen.
    rewrite Hroot. by destruct (generated_key_ok root name Hgen) as (_ & ? & ? & ?). }
  split.
  - intros Hbad.
    destruct (String.eqb_spec name "") as [Hname|_].
    { rewrite Hname in Hbad. by destruct Hbad. }
    destruct (files (server w) !! name) as [expiry|]; [|done].
    destruct (Hpath expiry eq_refl) as (Hsep & Hdd & _).
    rewrite Hsep, Hdd in Hbad. by destruct Hbad.
  - intros e path He Hev.
    destruct (String.eqb name ""); [done|].
    destruct (files (server w) !! name) as [expiry|]; [|done].
    destruct (Hpath expiry eq_refl) as (_ & _ & Hin).
    destruct (After (now env) expiry); [done|].
    assert (path = Join [storagePath (server w); name]) as ->; [|done].
    destruct (disk w !! _), (open_fails env), (stat_fails env);
      cbn [effects In] in He; intuition subst; cbn [event_path] in Hev; congruence.
Qed.

Lemma download_stays_inside_root_witness :
  reachable "./uploads" ∅ sample_uploaded
  /\ Contains (Get (Query (sample_download "../main.go")) "file") ".." = true
  /\ downloadHandler (sample_download_env 0) (sample_download "../main.go")
       sample_uploaded
     = MkRun sample_uploaded []
         (http_Error "File not found or expired" StatusNotFound).
Proof.
  split; [exact sample_uploaded_reachable|]. split; [reflexivity|].
  apply (download_stays_inside_root "./uploads" ∅ sample_uploaded
           (sample_download_env 0) (sample_download "../main.go")
           sample_uploaded_reachable).
  right. reflexivity.
Defined.

(** At the instant that equals the recorded expiry the registry check
    still passes: [After] is strict.  The sample file, registered with
    expiry [sample_expiry] and still on disk, is served at exactly that
    instant, so the download is not answered with 404. *)
Lemma download_at_expiry_instant_is_served :
  files (server sample_uploaded) !! "simplehost-1700000000.pdf"
  = Some sample_expiry
  /\ now (sample_download_env sample_expiry) = sample_expiry
  /\ (exists hdr,
        returned (downloadHandler (sample_download_env sample_expiry)
                    (sample_download "simplehost-1700000000.pdf") sample_uploaded)
        = Replied {| status := StatusOK; header := hdr;
                     body := FileBytes [x61; x62; x63] |})
  /\ ~ (exists msg,
          returned (downloadHandler (sample_download_env sample_expiry)
                      (sample_download "simplehost-1700000000.pdf") sample_uploaded)
          = http_Error msg StatusNotFound).
Proof.
  split; [by vm_compute|]. split; [reflexivity|]. split.
  - eexists. vm_compute. reflexivity.
  - intros [msg H].
    apply (f_equal (fun o => match o with
                             | Replied resp => status resp
                             | Panicked => 0
                             end)) in H.
    vm_compute in H. discriminate H.
Qed.

(** C2, as the code has it: a download of a registered, non-empty name
    strictly after its recorded expiry is refused with 404 by the
    registry check, without touching the file system, whether or not the
    file is still on disk; at or before the recorded expiry the registry
    check passes and the handler goes on to open the file at the joined
    path. *)
Theorem download_expiry_check
    (env : DownloadEnv) (r : Request) (w : World) (expiresAt : Z) :
  Get (Query r) "file" <> "" ->
  files (server w) !! Get (Query r) "file" = Some expiresAt ->
  (expiresAt < now env ->
   downloadHandler env r w
   = MkRun w [] (http_Error "File not found or expired" StatusNotFound))
  /\ (now env <= expiresAt ->
      returned (downloadHandler env r w)
      <> http_Error "File not found or expired" StatusNotFound
      /\ exists ok rest,
           effects (downloadHandler env r w)
           = EvOpen (Join [storagePath (server w); Get (Query r) "file"]) ok
               :: rest).
Proof.
  intros Hname%String.eqb_neq Hkey. rewrite downloadHandler_cases.
  rewrite Hname, Hkey. unfold After. split; intros Hnow.
  - by rewrite (proj2 (Z.ltb_lt _ _) Hnow).
  - rewrite (proj2 (Z.ltb_ge _ _) Hnow).
    destruct (disk w !! _), (open_fails env), (stat_fails env);
      (split; [discriminate|by eexists _, _]).
Qed.

Lemma download_expiry_check_witness :
  files (server sample_uploaded) !! "simplehost-1700000000.pdf"
  = Some sample_expiry
  /\ downloadHandler (sample_download_env (sample_expiry + 1))
       (sample_download "simplehost-1700000000.pdf") sample_uploaded
     = MkRun sample_uploaded []
         (http_Error "File not found or expired" StatusNotFound)
  /\ returned (downloadHandler (sample_download_env sample_expiry)
                 (sample_download "simplehost-1700000000.pdf") sample_uploaded)
     <> http_Error "File not found or expired" StatusNotFound.
Proof.
  assert (Hkey : files (server sample_uploaded)
                   !! Get (Query (sample_download "simplehost-1700000000.pdf")) "file"
                 = Some sample_expiry) by (vm_compute; reflexivity).
  assert (Hname : Get (Query (sample_download "simplehost-1700000000.pdf")) "file"
                  <> "") by discriminate.
  split; [exact Hkey|]. split.
  - apply (download_expiry_check (sample_download_env (sample_expiry + 1))
             (sample_download "simplehost-1700000000.pdf") sample_uploaded
             sample_expiry Hname Hkey).
    vm_compute. reflexivity.
  - apply (download_expiry_check (sample_download_env sample_expiry)
             (sample_download "simplehost-1700000000.pdf") sample_uploaded
             sample_expiry Hname Hkey).
    vm_compute. discriminate.
Defined.

(** A 200 answer of the upload handler means that every step succeeded. *)
Lemma upload_ok_inv (env : UploadEnv) (r : Request) (w : World) (resp : Response) :
  returned (uploadHandler env r w) = Replied resp ->
  status resp = StatusOK ->
  exists form fname content,
    Method r = "POST"
    /\ ParseMultipartForm (Z.shiftl 10 20) r = Some form
    /\ FormFile form "file" = Some (fname, content)
    /\ create_fails env = false
    /\ copy_fails_after env = None
    /\ uploadHandler env r w = uploaded env w fname content.
Proof.
  intros Hret Hstatus.
  destruct (uploadHandler_cases env r w)
    as [(msg & code & Hcode & Herr & _)|(form & fname & content & H)].
  - rewrite Herr in Hret. injection Hret as <-. by cbn in Hstatus.
  - by exists form, fname, content.
Qed.

(** A 200 answer of the download handler carrying file bytes comes from
    the last branch: the bytes are those on disk at the joined path and
    the content type is sniffed from zero bytes. *)
Lemma download_ok_inv (env : DownloadEnv) (r : Request) (w : World)
    (hdr : gmap string string) (data : list byte) :
  returned (downloadHandler env r w)
  = Replied {| status := StatusOK; header := hdr; body := FileBytes data |} ->
  disk w !! Join [storagePath (server w); Get (Query r) "file"] = Some data
  /\ hdr !! "Content-Type"
     = Some (DetectContentType env (make_bytes (Z.of_nat (length data)))).
Proof.
  rewrite downloadHandler_cases.
  destruct (String.eqb _ ""); [discriminate|].
  destruct (files (server w) !! _) as [expiry|]; [|discriminate].
  destruct (After (now env) expiry); [discriminate|].
  destruct (disk w !! _) as [content|]; [|discriminate].
  destruct (open_fails env); [discriminate|].
  destruct (stat_fails env); [discriminate|].
  cbn [returned]. destruct (String.eqb (Method r) "HEAD"); [discriminate|].
  intros [= <- <-]. split; [reflexivity|].
  rewrite lookup_insert_ne by discriminate. apply lookup_insert_eq.
Qed.

(** The round trip by name: after a successful upload, a GET whose [file]
    value is the generated name, made no later than the expiry, with the
    world as the upload left it and the file operations succeeding, is
    answered 200 with exactly the bytes of the uploaded file part. *)
Theorem upload_download_roundtrip
    (uenv : UploadEnv) (ur : Request) (w : World)
    (hdr : gmap string string) (name link : string)
    (denv : DownloadEnv) (dr : Request) :
  returned (uploadHandler uenv ur w)
  = Replied {| status := StatusOK; header := hdr;
               body := UploadedPage name link |} ->
  Get (Query dr) "file" = name ->
  Method dr = "GET" ->
  now denv <= Add (now_register uenv) (60 * Minute) ->
  open_fails denv = false ->
  stat_fails denv = false ->
  link = "/download?file=" +:+ name
  /\ exists form Filename content hdr',
       ParseMultipartForm (Z.shiftl 10 20) ur = Some form
       /\ FormFile form "file" = Some (Filename, content)
       /\ returned (downloadHandler denv dr
                      (world_after (uploadHandler uenv ur w)))
          = Replied {| status := StatusOK; header := hdr';
                       body := FileBytes content |}.
Proof.
  intros Hup Hget Hmethod Hnow Hopen Hstat.
  destruct (upload_ok_inv uenv ur w _ Hup eq_refl)
    as (form & fname & content & _ & Hparse & Hfile & _ & _ & Hrun).
  rewrite Hrun in Hup |- *. cbn [uploaded returned] in Hup.
  injection Hup as _ <- <-. split; [reflexivity|].
  exists form, fname, content. eexists. split; [done|]. split; [done|].
  rewrite downloadHandler_cases, Hget. cbn [uploaded world_after server files disk storagePath].
  assert (String.eqb (Sprintf_s_d_s "simplehost" (Unix (now_name uenv)) (Ext fname))
                     "" = false) as -> by reflexivity.
  rewrite !lookup_insert_eq. unfold After.
  rewrite (proj2 (Z.ltb_ge _ _) Hnow), Hopen, Hstat, Hmethod.
  reflexivity.
Qed.

Lemma upload_download_roundtrip_witness :
  "/download?file=simplehost-1700000000.pdf"
  = "/download?file=" +:+ "simplehost-1700000000.pdf"
  /\ exists form Filename content hdr',
       ParseMultipartForm (Z.shiftl 10 20) sample_upload = Some form
       /\ FormFile form "file" = Some (Filename, content)
       /\ returned (downloadHandler (sample_download_env (1700000000 * Second + 60))
                      (sample_download "simplehost-1700000000.pdf")
                      (world_after
                         (uploadHandler sample_upload_env sample_upload
                            sample_world)))
          = Replied {| status := StatusOK; header := hdr';
                       body := FileBytes content |}.
Proof.
  apply (upload_download_roundtrip sample_upload_env sample_upload sample_world
           {["Content-Type" := "text/html"]}
           "simplehost-1700000000.pdf"
           "/download?file=simplehost-1700000000.pdf"
           (sample_download_env (1700000000 * Second + 60))
           (sample_download "simplehost-1700000000.pdf")).
  - vm_compute. reflexivity.
  - reflexivity.
  - reflexivity.
  - vm_compute. discriminate.
  - reflexivity.
  - reflexivity.
Defined.

(** [url.ParseQuery] on a few queries: a plain name comes back as it is;
    [+] reads as a space, [&] ends the value, a bad escape or a semicolon
    drops the pair. *)
Example ParseQuery_table :
  map ParseQuery ["file=simplehost-1700000000.pdf"; "file=a.c%2B%2b"; "file=a.c++";
                  "file=x.r&d"; "file=a%zz&b=1"; "a=1;b=2"; ""; "file"; "&&x=y="]
  = [[("file", "simplehost-1700000000.pdf")]; [("file", "a.c++")];
     [("file", "a.c  ")]; [("file", "x.r"); ("d", "")]; [("b", "1")]; [];
     []; [("file", "")]; [("x", "y=")]].
Proof. reflexivity. Qed.

(** C1 (what the code does): the link of the answer is written without
    escaping.  The upload of a file named [main.c++] is answered 200, its
    bytes are stored and registered under [simplehost-1700000000.c++], and
    the returned link is [/download?file=simplehost-1700000000.c++]; the
    query of that link parses to the [file] value
    [simplehost-1700000000.c] followed by two spaces, which is not
    registered, so fetching the link a minute later is answered 404 and
    no byte of the upload comes back.  Asked by name, the same file is
    served. *)
Theorem returned_link_is_not_escaped :
  returned (uploadHandler sample_upload_env sample_upload_cpp sample_world)
  = Replied {| status := 200;
               header := {["Content-Type" := "text/html"]};
               body := UploadedPage "simplehost-1700000000.c++"
                         "/download?file=simplehost-1700000000.c++" |}
  /\ disk (world_after
             (uploadHandler sample_upload_env sample_upload_cpp sample_world))
       !! "uploads/simplehost-1700000000.c++" = Some [x61; x62; x63]
  /\ files (server (world_after
                      (uploadHandler sample_upload_env sample_upload_cpp
                         sample_world)))
       !! "simplehost-1700000000.c++" = Some sample_expiry
  /\ Query (fetch "/download?file=simplehost-1700000000.c++")
     = [("file", "simplehost-1700000000.c  ")]
  /\ downloadHandler (sample_download_env (1700000000 * Second + 60))
       (fetch "/download?file=simplehost-1700000000.c++")
       (world_after
          (uploadHandler sample_upload_env sample_upload_cpp sample_world))
     = MkRun
         (world_after
            (uploadHandler sample_upload_env sample_upload_cpp sample_world))
         [] (http_Error "File not found or expired" StatusNotFound)
  /\ exists hdr,
       returned (downloadHandler (sample_download_env (1700000000 * Second + 60))
                   (sample_download "simplehost-1700000000.c++")
                   (world_after
                      (uploadHandler sample_upload_env sample_upload_cpp
                         sample_world)))
       = Replied {| status := StatusOK; header := hdr;
                    body := FileBytes [x61; x62; x63] |}.
Proof.
  split; [vm_compute; reflexivity|].
  split; [vm_compute; reflexivity|].
  split; [vm_compute; reflexivity|].
  split; [vm_compute; reflexivity|].
  split; [vm_compute; reflexivity|].
  eexists. vm_compute. reflexivity.
Qed.

(** C10: the Content-Type of a successful download is what the sniffer
    answers on a buffer of zero bytes as long as the file; with the same
    sniffer, two files of the same size get the same Content-Type
    whatever their bytes. *)
Theorem content_type_from_size_only
    (env1 env2 : DownloadEnv) (r1 r2 : Request) (w1 w2 : World)
    (hdr1 hdr2 : gmap string string) (data1 data2 : list byte) :
  returned (downloadHandler env1 r1 w1)
  = Replied {| status := StatusOK; header := hdr1; body := FileBytes data1 |} ->
  returned (downloadHandler env2 r2 w2)
  = Replied {| status := StatusOK; header := hdr2; body := FileBytes data2 |} ->
  DetectContentType env1 = DetectContentType env2 ->
  hdr1 !! "Content-Type"
  = Some (DetectContentType env1 (repeat x00 (length data1)))
  /\ (length data1 = length data2 ->
      hdr1 !! "Content-Type" = hdr2 !! "Content-Type").
Proof.
  intros [_ H1]%download_ok_inv [_ H2]%download_ok_inv Hsniff.
  rewrite H1, H2, Hsniff. unfold make_bytes. rewrite !Nat2Z.id.
  split; [reflexivity|]. by intros ->.
Qed.

Lemma content_type_from_size_only_witness :
  exists hdr1 hdr2,
    returned (downloadHandler (sample_download_env 0)
                (sample_download "simplehost-1700000000.pdf") sample_uploaded)
    = Replied {| status := StatusOK; header := hdr1;
                 body := FileBytes [x61; x62; x63] |}
    /\ returned (downloadHandler (sample_download_env 0)
                   (sample_download "simplehost-1700000000.pdf")
                   sample_uploaded_other)
       = Replied {| status := StatusOK; header := hdr2;
                    body := FileBytes [x78; x79; x7a] |}
    /\ hdr1 !! "Content-Type" = hdr2 !! "Content-Type".
Proof.
  eexists _, _.
  assert (H1 : returned (downloadHandler (sample_download_env 0)
                 (sample_download "simplehost-1700000000.pdf") sample_uploaded)
               = Replied {| status := StatusOK; header := _;
                            body := FileBytes [x61; x62; x63] |})
    by (vm_compute; reflexivity).
  assert (H2 : returned (downloadHandler (sample_download_env 0)
                 (sample_download "simplehost-1700000000.pdf")
                 sample_uploaded_other)
               = Replied {| status := StatusOK; header := _;
                            body := FileBytes [x78; x79; x7a] |})
    by (vm_compute; reflexivity).
  split; [exact H1|]. split; [exact H2|].
  apply (content_type_from_size_only _ _ _ _ _ _ _ _ _ _ H1 H2 eq_refl).
  reflexivity.
Defined.

(** ** Uploads *)

Lemma append_assoc (a b c : string) : (a +:+ b) +:+ c = a +:+ b +:+ c.
Proof. apply chars_inj. by rewrite !chars_app, app_assoc. Qed.

Lemma plain_no_dot (l : list ascii) :
  forallb plain_char l = true ->
  forallb (fun c => negb (Ascii.eqb c dot)) l = true.
Proof.
  rewrite !forallb_forall. intros H c Hc.
  apply H, plain_char_spec in Hc as [Hc _]. by apply negb_true_iff, Ascii.eqb_neq.
Qed.

(** C5: a successful upload stores its file under the name it reports:
    the name is "simplehost-", the decimal numeral of the Unix time of
    the upload (digits only when that time is not negative) and the
    extension of the uploaded file name; that extension is empty or
    starts with a dot, is a suffix of the file name, is empty when the
    file name has no dot, and is again the extension of the generated
    name.  It is under this name that the file is created and written in
    the storage root, that the expiry is registered and that the timer is
    set, and the bytes of the upload are on disk at the path joined from
    the storage root and this name. *)
Theorem generated_name_format
    (env : UploadEnv) (r : Request) (w : World)
    (hdr : gmap string string) (name link : string) :
  returned (uploadHandler env r w)
  = Replied {| status := StatusOK; header := hdr;
               body := UploadedPage name link |} ->
  exists form Filename content,
    ParseMultipartForm (Z.shiftl 10 20) r = Some form
    /\ FormFile form "file" = Some (Filename, content)
    /\ name = "simplehost-" +:+ pretty (Unix (now_name env)) +:+ Ext Filename
    /\ (0 <= Unix (now_name env) ->
        forallb is_digit (chars (pretty (Unix (now_name env)))) = true)
    /\ (Ext Filename = "" \/ exists rest, Ext Filename = String dot rest)
    /\ (exists front, Filename = front +:+ Ext Filename)
    /\ (Contains Filename "." = false -> Ext Filename = "")
    /\ Ext name = Ext Filename
    /\ effects (uploadHandler env r w)
       = [EvCreate (Join [storagePath (server w); name]) true;
          EvCopy (Join [storagePath (server w); name]) content true;
          EvRegister name (now_register env + 60 * Minute);
          EvAfterFunc (60 * Minute) name]
    /\ disk (world_after (uploadHandler env r w))
         !! Join [storagePath (server w); name] = Some content
    /\ files (server (world_after (uploadHandler env r w))) !! name
       = Some (now_register env + 60 * Minute)
    /\ In (60 * Minute, name) (timers (world_after (uploadHandler env r w)))
    /\ link = "/download?file=" +:+ name.
Proof.
  intros Hup.
  destruct (upload_ok_inv env r w _ Hup eq_refl)
    as (form & fname & content & _ & Hparse & Hfile & _ & _ & Hrun).
  rewrite Hrun in Hup |- *. cbn [uploaded returned] in Hup.
  injection Hup as _ <- <-.
  exists form, fname, content.
  split; [exact Hparse|]. split; [exact Hfile|]. split; [reflexivity|].
  split; [apply pretty_Z_digits|].
  split.
  { destruct (Ext_shaped fname) as [->|(rest & -> & _)]; [by left|right; eauto]. }
  split; [apply Ext_suffix|]. split; [apply Ext_no_dot|].
  split.
  { unfold Sprintf_s_d_s.
    change ("simplehost" +:+ "-" +:+ pretty (Unix (now_name env)) +:+ Ext fname)
      with ("simplehost-" +:+ pretty (Unix (now_name env)) +:+ Ext fname).
    rewrite <- append_assoc. apply Ext_app; [|apply Ext_shaped].
    rewrite chars_app, forallb_app. apply andb_true_iff. split; [reflexivity|].
    apply plain_no_dot, pretty_Z_plain. }
  cbn [uploaded effects world_after server files disk timers].
  rewrite !lookup_insert_eq.
  split; [reflexivity|]. split; [reflexivity|]. split; [reflexivity|].
  split; [|reflexivity]. apply in_or_app. right. by left.
Qed.

Lemma generated_name_format_witness :
  exists form Filename content,
    ParseMultipartForm (Z.shiftl 10 20) sample_upload = Some form
    /\ FormFile form "file" = Some (Filename, content)
    /\ "simplehost-1700000000.pdf"
       = "simplehost-" +:+ pretty (Unix (now_name sample_upload_env))
         +:+ Ext Filename
    /\ (0 <= Unix (now_name sample_upload_env) ->
        forallb is_digit (chars (pretty (Unix (now_name sample_upload_env))))
        = true)
    /\ (Ext Filename = "" \/ exists rest, Ext Filename = String dot rest)
    /\ (exists front, Filename = front +:+ Ext Filename)
    /\ (Contains Filename "." = false -> Ext Filename = "")
    /\ Ext "simplehost-1700000000.pdf" = Ext Filename
    /\ effects (uploadHandler sample_upload_env sample_upload sample_world)
       = [EvCreate (Join [storagePath (server sample_world);
                          "simplehost-1700000000.pdf"]) true;
          EvCopy (Join [storagePath (server sample_world);
                        "simplehost-1700000000.pdf"]) content true;
          EvRegister "simplehost-1700000000.pdf"
            (now_register sample_upload_env + 60 * Minute);
          EvAfterFunc (60 * Minute) "simplehost-1700000000.pdf"]
    /\ disk (world_after
               (uploadHandler sample_upload_env sample_upload sample_world))
         !! Join [storagePath (server sample_world); "simplehost-1700000000.pdf"]
       = Some content
    /\ files (server (world_after
                        (uploadHandler sample_upload_env sample_upload
                           sample_world)))
         !! "simplehost-1700000000.pdf"
       = Some (now_register sample_upload_env + 60 * Minute)
    /\ In (60 * Minute, "simplehost-1700000000.pdf")
          (timers (world_after
                     (uploadHandler sample_upload_env sample_upload sample_world)))
    /\ "/download?file=simplehost-1700000000.pdf"
       = "/download?file=" +:+ "simplehost-1700000000.pdf".
Proof.
  apply (generated_name_format sample_upload_env sample_upload sample_world
           {["Content-Type" := "text/html"]}
           "simplehost-1700000000.pdf"
           "/download?file=simplehost-1700000000.pdf").
  vm_compute. reflexivity.
Defined.

(** C6: an upload request whose method is not POST is answered 405 by the
    upload handler; the world is unchanged (no file, no registry entry,
    no timer) and no effect is performed. *)
Theorem upload_requires_post (env : UploadEnv) (r : Request) (w : World) :
  Method r <> "POST" ->
  returned (uploadHandler env r w)
  = http_Error "Only POST method is allowed" StatusMethodNotAllowed
  /\ StatusMethodNotAllowed = 405
  /\ world_after (uploadHandler env r w) = w
  /\ effects (uploadHandler env r w) = [].
Proof.
  intros Hm%String.eqb_neq. unfold uploadHandler. rewrite Hm. by cbn.
Qed.

Lemma upload_requires_post_witness :
  Method (sample_download "x") <> "POST"
  /\ returned (uploadHandler sample_upload_env (sample_download "x") sample_uploaded)
     = http_Error "Only POST method is allowed" StatusMethodNotAllowed
  /\ StatusMethodNotAllowed = 405
  /\ world_after (uploadHandler sample_upload_env (sample_download "x")
                    sample_uploaded) = sample_uploaded
  /\ effects (uploadHandler sample_upload_env (sample_download "x")
                sample_uploaded) = [].
Proof.
  assert (H : Method (sample_download "x") <> "POST") by discriminate.
  split; [exact H|].
  exact (upload_requires_post sample_upload_env (sample_download "x")
           sample_uploaded H).
Defined.

(** The [/upload] route of [main] never passes a request that is not a
    POST to the upload handler: a GET is answered 404 and any other
    method gets the empty default answer; the world is unchanged. *)
Lemma upload_route_other_methods (env : UploadEnv) (r : Request) (w : World) :
  Method r <> "POST" ->
  world_after (upload_route env r w) = w
  /\ effects (upload_route env r w) = []
  /\ returned (upload_route env r w)
     = if String.eqb (Method r) "GET"
       then http_Error "Route Doesn't Exist :/" StatusNotFound
       else Replied {| status := StatusOK; header := ∅; body := NoBody |}.
Proof.
  intros Hm%String.eqb_neq. unfold upload_route. rewrite Hm.
  by destruct (String.eqb (Method r) "GET").
Qed.

(** C8: a successful upload performs exactly four effects, in this order:
    the file is created, the whole content is written to it, the name is
    registered with expiry one hour after the second clock reading, and
    the one-shot timer of one hour is set for that name.  An upload whose
    file creation or write fails answers 500 or an earlier error, leaves
    the registry and the timers as they were, and performs neither a
    registration nor a timer effect. *)
Theorem upload_effects_in_order (env : UploadEnv) (r : Request) (w : World) :
  (forall resp,
     returned (uploadHandler env r w) = Replied resp ->
     status resp = StatusOK ->
     exists form Filename content,
       ParseMultipartForm (Z.shiftl 10 20) r = Some form
       /\ FormFile form "file" = Some (Filename, content)
       /\ let name :=
            Sprintf_s_d_s "simplehost" (Unix (now_name env)) (Ext Filename) in
          let path := Join [storagePath (server w); name] in
          effects (uploadHandler env r w)
          = [EvCreate path true;
             EvCopy path content true;
             EvRegister name (now_register env + 3600 * Second);
             EvAfterFunc (3600 * Second) name]
          /\ disk (world_after (uploadHandler env r w)) !! path = Some content
          /\ files (server (world_after (uploadHandler env r w))) !! name
             = Some (now_register env + 3600 * Second)
          /\ timers (world_after (uploadHandler env r w))
             = timers w ++ [(3600 * Second, name)])
  /\ (create_fails env = true \/ is_Some (copy_fails_after env) ->
      (exists msg code,
         returned (uploadHandler env r w) = http_Error msg code
         /\ code <> StatusOK)
      /\ files (server (world_after (uploadHandler env r w))) = files (server w)
      /\ timers (world_after (uploadHandler env r w)) = timers w
      /\ forallb (fun e => negb (is_publication e))
                 (effects (uploadHandler env r w)) = true).
Proof.
  split.
  - intros resp Hret Hstatus.
    destruct (upload_ok_inv env r w resp Hret Hstatus)
      as (form & fname & content & _ & Hparse & Hfile & _ & _ & ->).
    exists form, fname, content. split; [done|]. split; [done|].
    cbn [uploaded effects world_after server files disk timers].
    rewrite !lookup_insert_eq. by repeat split.
  - intros Hfail.
    destruct (uploadHandler_cases env r w)
      as [(msg & code & Hcode & Herr & Hsrv & Htim & Hev)
         |(form & fname & content & _ & _ & _ & Hc & Hcp & _)].
    + rewrite Hsrv. repeat split; eauto.
    + destruct Hfail as [Hfail|[n Hfail]]; congruence.
Qed.

Lemma upload_effects_in_order_witness :
  effects (uploadHandler sample_upload_env sample_upload sample_world)
  = [EvCreate "uploads/simplehost-1700000000.pdf" true;
     EvCopy "uploads/simplehost-1700000000.pdf" [x61; x62; x63] true;
     EvRegister "simplehost-1700000000.pdf" sample_expiry;
     EvAfterFunc (3600 * Second) "simplehost-1700000000.pdf"]
  /\ files (server
             (world_after
                (uploadHandler
                   {| now_name := 0; now_register := 0; create_fails := true;
                      copy_fails_after := None |}
                   sample_upload sample_world)))
     = files (server sample_world).
Proof.
  destruct (upload_effects_in_order sample_upload_env sample_upload sample_world)
    as [Hok _].
  destruct (Hok _ eq_refl eq_refl)
    as (form & Filename & content & Hparse & Hfile & Heffects & _).
  injection Hparse as <-. injection Hfile as <- <-.
  split; [exact Heffects|].
  apply (upload_effects_in_order
           {| now_name := 0; now_register := 0; create_fails := true;
              copy_fails_after := None |} sample_upload sample_world).
  left. reflexivity.
Defined.

(** ** Upload size *)

(** A well-formed POST with a single file part is stored whatever the
    size of the part: [ParseMultipartForm] bounds memory, not the body. *)
Lemma upload_any_size (env : UploadEnv) (w : World) (Filename : string)
    (content : list byte) :
  create_fails env = false ->
  copy_fails_after env = None ->
  uploadHandler env
    {| Method := "POST"; Query := [];
       Payload := Multipart [FilePart "file" Filename content] |} w
  = uploaded env w Filename content.
Proof.
  intros Hc Hcp.
  destruct (uploadHandler_cases env
              {| Method := "POST"; Query := [];
                 Payload := Multipart [FilePart "file" Filename content] |} w)
    as [(msg & code & Hcode & Herr & _)
       |(form & fname & content' & _ & Hparse & Hfile & _ & _ & ->)].
  - exfalso. revert Herr. unfold uploadHandler.
    change (ParseMultipartForm (Z.shiftl 10 20)
              {| Method := "POST"; Query := [];
                 Payload := Multipart [FilePart "file" Filename content] |})
      with (Some [FilePart "file" Filename content]).
    cbn [Method String.eqb Ascii.eqb Bool.eqb negb FormFile].
    change (String.eqb "POST" "POST") with true.
    change (String.eqb "file" "file") with true. cbn [negb].
    cbv [bind get_server os_Create io_Copy register AfterFunc returned
         world_after effects ret].
    rewrite Hc, Hcp. cbn [negb]. unfold http_Error.
    intros Herr. apply Hcode. by injection Herr.
  - injection Hparse as <-. injection Hfile as <- <-. reflexivity.
Qed.

(** C4 (what the code does): a POST whose file part is one byte over
    10 MiB is answered 200 and all of its bytes are stored and
    registered; nothing in the handler bounds the size of the upload. *)
Theorem oversized_upload_is_stored :
  Z.of_nat (length oversized_content) = 10 * 1024 * 1024 + 1
  /\ uploadHandler sample_upload_env oversized_upload sample_world
     = uploaded sample_upload_env sample_world "big.bin" oversized_content
  /\ returned (uploadHandler sample_upload_env oversized_upload sample_world)
     = Replied {| status := 200;
                  header := {["Content-Type" := "text/html"]};
                  body := UploadedPage "simplehost-1700000000.bin"
                            "/download?file=simplehost-1700000000.bin" |}
  /\ disk (world_after
             (uploadHandler sample_upload_env oversized_upload sample_world))
       !! "uploads/simplehost-1700000000.bin"
     = Some oversized_content.
Proof.
  assert (Hrun : uploadHandler sample_upload_env oversized_upload sample_world
                 = uploaded sample_upload_env sample_world "big.bin"
                     oversized_content)
    by (by apply upload_any_size).
  split; [|split; [exact Hrun|rewrite Hrun; split]].
  - unfold oversized_content. rewrite repeat_length, Z2Nat.id; [reflexivity|].
    by vm_compute.
  - reflexivity.
  - cbn [uploaded world_after disk].
    change (Join [storagePath (server sample_world);
                  Sprintf_s_d_s "simplehost" (Unix (now_name sample_upload_env))
                    (Ext "big.bin")])
      with "uploads/simplehost-1700000000.bin".
    apply lookup_insert_eq.
Qed.

(** ** Expiry *)

(** C7: [deleteFile] has two outcomes.  When the removal fails (the file
    is missing or the removal is refused) the world, and with it the
    registry entry, is left as it was and the failure is only printed.
    When the removal succeeds the file is gone from the disk and the
    entry of that name is deleted from the registry.  Either way the
    function returns nothing and performs no other effect, so no request
    sees the failure. *)
Theorem deleteFile_outcomes (remove_fails : bool) (fileName : string) (w : World) :
  (remove_fails = true
   \/ disk w !! Join [storagePath (server w); fileName] = None ->
   world_after (deleteFile remove_fails fileName w) = w
   /\ effects (deleteFile remove_fails fileName w)
      = [EvRemove (Join [storagePath (server w); fileName]) false;
         EvPrintDeleteError])
  /\ (remove_fails = false ->
      is_Some (disk w !! Join [storagePath (server w); fileName]) ->
      files (server (world_after (deleteFile remove_fails fileName w)))
      = delete fileName (files (server w))
      /\ files (server (world_after (deleteFile remove_fails fileName w)))
           !! fileName = None
      /\ disk (world_after (deleteFile remove_fails fileName w))
         = delete (Join [storagePath (server w); fileName]) (disk w)
      /\ timers (world_after (deleteFile remove_fails fileName w)) = timers w
      /\ effects (deleteFile remove_fails fileName w)
         = [EvRemove (Join [storagePath (server w); fileName]) true;
            EvUnregister fileName; EvPrintDeleted fileName])
  /\ returned (deleteFile remove_fails fileName w) = tt.
Proof.
  rewrite deleteFile_cases. split; [|split].
  - intros [-> | ->]; [|done]. by destruct (disk w !! _).
  - intros -> [content ->]. cbn [world_after effects server files disk timers].
    by rewrite lookup_delete_eq.
  - by destruct (returned _).
Qed.

Lemma deleteFile_outcomes_witness :
  files (server (world_after (deleteFile true "simplehost-1700000000.pdf"
                                sample_uploaded)))
    !! "simplehost-1700000000.pdf" = Some sample_expiry
  /\ files (server (world_after (deleteFile false "simplehost-1700000000.pdf"
                                   sample_uploaded)))
       !! "simplehost-1700000000.pdf" = None.
Proof.
  destruct (deleteFile_outcomes true "simplehost-1700000000.pdf" sample_uploaded)
    as ([Hworld _] & _ & _); [by left|].
  destruct (deleteFile_outcomes false "simplehost-1700000000.pdf" sample_uploaded)
    as (_ & Hok & _).
  destruct Hok as (_ & Hgone & _);
    [reflexivity|by eexists; vm_compute; reflexivity|].
  split; [|exact Hgone].
  rewrite Hworld. vm_compute. reflexivity.
Defined.

(** * Further properties of the handlers *)

(** The upload handler, flattened. *)
Lemma uploadHandler_flat (env : UploadEnv) (r : Request) (w : World) :
  uploadHandler env r w =
  if negb (String.eqb (Method r) "POST") then
    MkRun w [] (http_Error "Only POST method is allowed" StatusMethodNotAllowed)
  else
    match ParseMultipartForm (Z.shiftl 10 20) r with
    | None => MkRun w [] (http_Error "Unable to parse form" StatusBadRequest)
    | Some form =>
        match FormFile form "file" with
        | None =>
            MkRun w [] (http_Error "Unable to get the file from form"
                                   StatusBadRequest)
        | Some (Filename, content) =>
            let name :=
              Sprintf_s_d_s "simplehost" (Unix (now_name env)) (Ext Filename) in
            let path := Join [storagePath (server w); name] in
            if create_fails env then
              MkRun w [EvCreate path false]
                (http_Error "Unable to create the file on server"
                            StatusInternalServerError)
            else
              match copy_fails_after env with
              | Some n =>
                  MkRun (set_disk (<[path := take n content]>
                                     (<[path := []]> (disk w))) w)
                    [EvCreate path true; EvCopy path (take n content) false]
                    (http_Error "Unable to save the file"
                                StatusInternalServerError)
              | None => uploaded env w Filename content
              end
        end
    end.
Proof.
  unfold uploadHandler.
  destruct (negb (String.eqb (Method r) "POST")); [reflexivity|].
  destruct (ParseMultipartForm _ r) as [form|]; [|reflexivity].
  destruct (FormFile form "file") as [[Filename content]|]; [|reflexivity].
  cbv [bind get_server os_Create io_Copy register AfterFunc returned world_after
       effects ret].
  destruct (create_fails env); [reflexivity|].
  destruct (copy_fails_after env); reflexivity.
Qed.

(** ** Downloads: refusals and what a success means *)

Lemma Get_absent (q : list (string * string)) (key : string) :
  (forall v, In (key, v) q -> v = "") -> Get q key = "".
Proof.
  induction q as [|[k v] q IH]; intros H; [reflexivity|].
  cbn [Get]. destruct (String.eqb_spec k key) as [->|_].
  - apply H. by left.
  - apply IH. intros v' Hv'. apply H. by right.
Qed.

(** X1: a download request whose query has no [file] value, or only
    empty ones, is answered 400 before the registry or the file system is
    looked at; the world is unchanged. *)
Theorem download_without_name_is_bad_request
    (env : DownloadEnv) (r : Request) (w : World) :
  (forall v, In ("file", v) (Query r) -> v = "") ->
  downloadHandler env r w
  = MkRun w [] (http_Error "File name is required" StatusBadRequest).
Proof.
  intros Hq%Get_absent. rewrite downloadHandler_cases, Hq. reflexivity.
Qed.

Lemma download_without_name_is_bad_request_witness :
  downloadHandler (sample_download_env 0)
    {| Method := "GET"; Query := [("name", "simplehost-1700000000.pdf")];
       Payload := NotMultipart |} sample_uploaded
  = MkRun sample_uploaded [] (http_Error "File name is required" StatusBadRequest).
Proof.
  apply (download_without_name_is_bad_request (sample_download_env 0)
           {| Method := "GET"; Query := [("name", "simplehost-1700000000.pdf")];
              Payload := NotMultipart |} sample_uploaded).
  intros v [H|[]]. discriminate H.
Defined.

(** X2: the download handler never serves a file that is not registered
    or whose expiry has passed: a 200 answer carrying bytes means that the
    requested name is not empty, is in the registry with an expiry not
    before the clock reading, and that the bytes are those the disk holds
    at the path joined from the storage root and the name. *)
Theorem download_success_is_sound
    (env : DownloadEnv) (r : Request) (w : World)
    (hdr : gmap string string) (data : list byte) :
  returned (downloadHandler env r w)
  = Replied {| status := StatusOK; header := hdr; body := FileBytes data |} ->
  Get (Query r) "file" <> ""
  /\ (exists expiresAt,
        files (server w) !! Get (Query r) "file" = Some expiresAt
        /\ now env <= expiresAt)
  /\ disk w !! Join [storagePath (server w); Get (Query r) "file"] = Some data
  /\ open_fails env = false
  /\ stat_fails env = false.
Proof.
  rewrite downloadHandler_cases.
  destruct (String.eqb_spec (Get (Query r) "file") "") as [_|Hname];
    [discriminate|].
  destruct (files (server w) !! _) as [expiry|]; [|discriminate].
  unfold After. destruct (Z.ltb_spec expiry (now env)) as [_|Hnow];
    [discriminate|].
  destruct (disk w !! _) as [content|]; [|discriminate].
  destruct (open_fails env); [discriminate|].
  destruct (stat_fails env); [discriminate|].
  cbn [returned]. destruct (String.eqb (Method r) "HEAD"); [discriminate|].
  intros [= _ <-]. eauto 10.
Qed.

Lemma download_success_is_sound_witness :
  exists hdr,
    returned (downloadHandler (sample_download_env 0)
                (sample_download "simplehost-1700000000.pdf") sample_uploaded)
    = Replied {| status := StatusOK; header := hdr;
                 body := FileBytes [x61; x62; x63] |}
    /\ (exists expiresAt,
          files (server sample_uploaded)
            !! Get (Query (sample_download "simplehost-1700000000.pdf")) "file"
          = Some expiresAt
          /\ now (sample_download_env 0) <= expiresAt).
Proof.
  eexists.
  assert (H : returned (downloadHandler (sample_download_env 0)
                          (sample_download "simplehost-1700000000.pdf")
                          sample_uploaded)
              = Replied {| status := StatusOK; header := _;
                           body := FileBytes [x61; x62; x63] |})
    by (vm_compute; reflexivity).
  split; [exact H|].
  apply (download_success_is_sound _ _ _ _ _ H).
Defined.

(** X3: a download changes nothing: the server, the disk and the timers
    are as before, so a download that follows sees what it would have
    seen alone, and repeating a download repeats its answer. *)
Theorem download_is_read_only
    (env env' : DownloadEnv) (r r' : Request) (w : World) :
  world_after (downloadHandler env r w) = w
  /\ downloadHandler env' r' (world_after (downloadHandler env r w))
     = downloadHandler env' r' w
  /\ returned (downloadHandler env r (world_after (downloadHandler env r w)))
     = returned (downloadHandler env r w).
Proof.
  rewrite downloadHandler_world. by repeat split.
Qed.

(** ** Generated names: when two uploads share one *)

(** A list cut before its first dot is cut in one way only. *)
Lemma split_at_dot (l1 l2 r1 r2 : list ascii) :
  forallb (fun c => negb (Ascii.eqb c dot)) l1 = true ->
  forallb (fun c => negb (Ascii.eqb c dot)) l2 = true ->
  (r1 = [] \/ exists x, r1 = dot :: x) ->
  (r2 = [] \/ exists x, r2 = dot :: x) ->
  l1 ++ r1 = l2 ++ r2 ->
  l1 = l2 /\ r1 = r2.
Proof.
  revert l2. induction l1 as [|c l1 IH]; intros [|c' l2] H1 H2 Hr1 Hr2 Heq.
  - done.
  - exfalso. cbn [forallb] in H2. apply andb_true_iff in H2 as [Hc _].
    destruct Hr1 as [->|[x ->]]; [done|].
    injection Heq as <- _. by rewrite Ascii.eqb_refl in Hc.
  - exfalso. cbn [forallb] in H1. apply andb_true_iff in H1 as [Hc _].
    destruct Hr2 as [->|[x ->]]; [done|].
    injection Heq as -> _. by rewrite Ascii.eqb_refl in Hc.
  - cbn [forallb] in H1, H2.
    apply andb_true_iff in H1 as [_ H1]. apply andb_true_iff in H2 as [_ H2].
    injection Heq as -> Heq.
    destruct (IH l2 H1 H2 Hr1 Hr2 Heq) as [-> ->]. done.
Qed.

Lemma extension_shaped_chars (ext : string) :
  extension_shaped ext -> chars ext = [] \/ exists x, chars ext = dot :: x.
Proof. intros [->|(rest & -> & _)]; [by left|right; by eexists]. Qed.

(** A generated name determines its timestamp and its extension. *)
Lemma generated_name_inj (t1 t2 : Z) (e1 e2 : string) :
  extension_shaped e1 -> extension_shaped e2 ->
  Sprintf_s_d_s "simplehost" t1 e1 = Sprintf_s_d_s "simplehost" t2 e2 ->
  t1 = t2 /\ e1 = e2.
Proof.
  intros He1%extension_shaped_chars He2%extension_shaped_chars Heq.
  apply (f_equal chars) in Heq. unfold Sprintf_s_d_s in Heq.
  rewrite !chars_app in Heq. do 2 apply app_inv_head in Heq.
  apply split_at_dot in Heq as [Ht He]; try done;
    try (apply plain_no_dot, pretty_Z_plain).
  split; [|by apply chars_inj].
  apply chars_inj in Ht. by apply (inj (pretty : Z -> string)).
Qed.

(** X4: two successful uploads get the same name exactly when they were
    named in the same Unix second and their file names have the same
    extension. *)
Theorem upload_names_collide_iff
    (env1 env2 : UploadEnv) (r1 r2 : Request) (w1 w2 : World)
    (hdr1 hdr2 : gmap string string) (name1 name2 link1 link2 : string) :
  returned (uploadHandler env1 r1 w1)
  = Replied {| status := StatusOK; header := hdr1;
               body := UploadedPage name1 link1 |} ->
  returned (uploadHandler env2 r2 w2)
  = Replied {| status := StatusOK; header := hdr2;
               body := UploadedPage name2 link2 |} ->
  exists form1 Filename1 content1 form2 Filename2 content2,
    ParseMultipartForm (Z.shiftl 10 20) r1 = Some form1
    /\ FormFile form1 "file" = Some (Filename1, content1)
    /\ ParseMultipartForm (Z.shiftl 10 20) r2 = Some form2
    /\ FormFile form2 "file" = Some (Filename2, content2)
    /\ (name1 = name2 <->
        Unix (now_name env1) = Unix (now_name env2)
        /\ Ext Filename1 = Ext Filename2).
Proof.
  intros Hup1 Hup2.
  destruct (upload_ok_inv env1 r1 w1 _ Hup1 eq_refl)
    as (form1 & f1 & c1 & _ & Hp1 & Hf1 & _ & _ & Hrun1).
  destruct (upload_ok_inv env2 r2 w2 _ Hup2 eq_refl)
    as (form2 & f2 & c2 & _ & Hp2 & Hf2 & _ & _ & Hrun2).
  rewrite Hrun1 in Hup1. rewrite Hrun2 in Hup2.
  cbn [uploaded returned] in Hup1, Hup2.
  injection Hup1 as _ <- _. injection Hup2 as _ <- _.
  exists form1, f1, c1, form2, f2, c2. do 4 (split; [done|]). split.
  - intros Heq. apply generated_name_inj in Heq; auto using Ext_shaped.
  - intros [-> ->]. reflexivity.
Qed.

Lemma upload_names_collide_iff_witness :
  exists form1 Filename1 content1 form2 Filename2 content2,
    ParseMultipartForm (Z.shiftl 10 20) sample_upload = Some form1
    /\ FormFile form1 "file" = Some (Filename1, content1)
    /\ ParseMultipartForm (Z.shiftl 10 20) sample_upload_other = Some form2
    /\ FormFile form2 "file" = Some (Filename2, content2)
    /\ ("simplehost-1700000000.pdf" = "simplehost-1700000000.pdf" <->
        Unix (now_name sample_upload_env) = Unix (now_name sample_upload_env_later)
        /\ Ext Filename1 = Ext Filename2).
Proof.
  apply (upload_names_collide_iff sample_upload_env sample_upload_env_later
           sample_upload sample_upload_other sample_world sample_uploaded
           {["Content-Type" := "text/html"]} {["Content-Type" := "text/html"]}
           "simplehost-1700000000.pdf" "simplehost-1700000000.pdf"
           "/download?file=simplehost-1700000000.pdf"
           "/download?file=simplehost-1700000000.pdf").
  - vm_compute. reflexivity.
  - vm_compute. reflexivity.
Defined.

(** X5: when a second upload succeeds under the name of an earlier one,
    the file of that name holds the second content only, the registry
    keeps one entry with the second expiry, and two timers are pending
    for the name. *)
Theorem colliding_upload_overwrites
    (env1 env2 : UploadEnv) (r1 r2 : Request) (w : World)
    (hdr1 hdr2 : gmap string string) (name link1 link2 : string) :
  returned (uploadHandler env1 r1 w)
  = Replied {| status := StatusOK; header := hdr1;
               body := UploadedPage name link1 |} ->
  returned (uploadHandler env2 r2 (world_after (uploadHandler env1 r1 w)))
  = Replied {| status := StatusOK; header := hdr2;
               body := UploadedPage name link2 |} ->
  exists form2 Filename2 content2,
    ParseMultipartForm (Z.shiftl 10 20) r2 = Some form2
    /\ FormFile form2 "file" = Some (Filename2, content2)
    /\ let w2 :=
         world_after
           (uploadHandler env2 r2 (world_after (uploadHandler env1 r1 w))) in
       disk w2 !! Join [storagePath (server w); name] = Some content2
       /\ files (server w2) !! name = Some (now_register env2 + 60 * Minute)
       /\ files (server w2)
          = <[name := now_register env2 + 60 * Minute]> (files (server w))
       /\ timers w2 = timers w ++ [(60 * Minute, name); (60 * Minute, name)].
Proof.
  intros Hup1 Hup2.
  destruct (upload_ok_inv env1 r1 w _ Hup1 eq_refl)
    as (form1 & f1 & c1 & _ & _ & _ & _ & _ & Hrun1).
  rewrite Hrun1 in Hup1, Hup2 |- *.
  destruct (upload_ok_inv env2 r2 _ _ Hup2 eq_refl)
    as (form2 & f2 & c2 & _ & Hp2 & Hf2 & _ & _ & Hrun2).
  rewrite Hrun2 in Hup2 |- *.
  cbn [uploaded returned world_after server storagePath] in Hup1, Hup2.
  injection Hup1 as _ Hname1 _. injection Hup2 as _ Hname2 _.
  exists form2, f2, c2. do 2 (split; [done|]).
  cbn [uploaded world_after server storagePath files disk timers].
  rewrite Hname1, Hname2. unfold Add.
  rewrite !lookup_insert_eq, insert_insert_eq, <- app_assoc. done.
Qed.

Lemma colliding_upload_overwrites_witness :
  exists form2 Filename2 content2,
    ParseMultipartForm (Z.shiftl 10 20) sample_upload_other = Some form2
    /\ FormFile form2 "file" = Some (Filename2, content2)
    /\ let w2 :=
         world_after
           (uploadHandler sample_upload_env_later sample_upload_other
              (world_after
                 (uploadHandler sample_upload_env sample_upload sample_world))) in
       disk w2 !! Join [storagePath (server sample_world);
                        "simplehost-1700000000.pdf"] = Some content2
       /\ files (server w2) !! "simplehost-1700000000.pdf"
          = Some (now_register sample_upload_env_later + 60 * Minute)
       /\ files (server w2)
          = <["simplehost-1700000000.pdf" :=
                now_register sample_upload_env_later + 60 * Minute]>
              (files (server sample_world))
       /\ timers w2
          = timers sample_world
            ++ [(60 * Minute, "simplehost-1700000000.pdf");
                (60 * Minute, "simplehost-1700000000.pdf")].
Proof.
  apply (colliding_upload_overwrites sample_upload_env sample_upload_env_later
           sample_upload sample_upload_other sample_world
           {["Content-Type" := "text/html"]} {["Content-Type" := "text/html"]}
           "simplehost-1700000000.pdf"
           "/download?file=simplehost-1700000000.pdf"
           "/download?file=simplehost-1700000000.pdf").
  - vm_compute. reflexivity.
  - vm_compute. reflexivity.
Defined.

(** ** Uploads and the files of other names *)

Lemma child_of_inj (dir a b : string) : child_of dir a = child_of dir b -> a = b.
Proof.
  unfold child_of. destruct (String.eqb dir "."); [done|].
  destruct (String.eqb dir "/").
  - apply (inj (String.app "/")).
  - intros H. apply (inj (String.app dir)) in H. by apply (inj (String.app "/")) in H.
Qed.

Lemma Join_plain_inj (root a b : string) :
  is_plain_element a = true -> is_plain_element b = true ->
  Join [root; a] = Join [root; b] -> a = b.
Proof.
  intros Ha Hb. rewrite !Join_child by done. apply child_of_inj.
Qed.

(** X6: an upload leaves every other generated name alone: unless the
    name it derives from its clock reading and file name is that very
    name, the registry entry of the name and the file at its path are
    after the upload what they were before, whether the upload succeeds
    or fails. *)
Theorem upload_leaves_other_names
    (env : UploadEnv) (r : Request) (w : World) (key : string) :
  generated key ->
  (forall form Filename content,
     ParseMultipartForm (Z.shiftl 10 20) r = Some form ->
     FormFile form "file" = Some (Filename, content) ->
     key <> Sprintf_s_d_s "simplehost" (Unix (now_name env)) (Ext Filename)) ->
  files (server (world_after (uploadHandler env r w))) !! key
  = files (server w) !! key
  /\ disk (world_after (uploadHandler env r w))
       !! Join [storagePath (server w); key]
     = disk w !! Join [storagePath (server w); key].
Proof.
  intros Hgen Hother. rewrite uploadHandler_flat.
  destruct (negb _); [done|].
  destruct (ParseMultipartForm _ r) as [form|]; [|done].
  destruct (FormFile form "file") as [[Filename content]|] eqn:Hfile; [|done].
  specialize (Hother form Filename content eq_refl Hfile).
  assert (Hpath : Join [storagePath (server w);
                        Sprintf_s_d_s "simplehost" (Unix (now_name env))
                          (Ext Filename)]
                  <> Join [storagePath (server w); key]).
  { intros Heq. apply Join_plain_inj in Heq;
      auto using generated_plain_element, generated_intro. }
  cbn zeta. destruct (create_fails env); [done|].
  destruct (copy_fails_after env) as [n|];
    cbn [uploaded world_after set_disk server files disk];
    rewrite ?lookup_insert_ne by done; done.
Qed.

Lemma upload_leaves_other_names_witness :
  files (server (world_after
                   (uploadHandler sample_upload_env_next sample_upload_other
                      sample_uploaded)))
    !! "simplehost-1700000000.pdf"
  = files (server sample_uploaded) !! "simplehost-1700000000.pdf"
  /\ disk (world_after
             (uploadHandler sample_upload_env_next sample_upload_other
                sample_uploaded))
       !! Join [storagePath (server sample_uploaded); "simplehost-1700000000.pdf"]
     = disk sample_uploaded
         !! Join [storagePath (server sample_uploaded);
                  "simplehost-1700000000.pdf"].
Proof.
  apply (upload_leaves_other_names sample_upload_env_next sample_upload_other
           sample_uploaded "simplehost-1700000000.pdf").
  - exists 1700000000, ".pdf". split; [reflexivity|].
    right. exists "pdf". split; reflexivity.
  - intros form Filename content Hp Hf.
    vm_compute in Hp. injection Hp as <-.
    vm_compute in Hf. injection Hf as <- _.
    vm_compute. discriminate.
Defined.

(** ** Expiry after an upload *)

(** X7: when the timer of a successful upload fires and the removal
    succeeds, the file is gone from the disk and the name from the
    registry, and every later download of that name is answered 404
    without touching the file system. *)
Theorem expired_upload_is_gone
    (uenv : UploadEnv) (ur : Request) (w : World)
    (hdr : gmap string string) (name link : string)
    (denv : DownloadEnv) (dr : Request) :
  returned (uploadHandler uenv ur w)
  = Replied {| status := StatusOK; header := hdr;
               body := UploadedPage name link |} ->
  Get (Query dr) "file" = name ->
  let expired :=
    world_after (deleteFile false name (world_after (uploadHandler uenv ur w))) in
  files (server expired) !! name = None
  /\ disk expired !! Join [storagePath (server w); name] = None
  /\ effects (deleteFile false name (world_after (uploadHandler uenv ur w)))
     = [EvRemove (Join [storagePath (server w); name]) true;
        EvUnregister name; EvPrintDeleted name]
  /\ downloadHandler denv dr expired
     = MkRun expired [] (http_Error "File not found or expired" StatusNotFound).
Proof.
  intros Hup Hget expired. subst expired.
  destruct (upload_ok_inv uenv ur w _ Hup eq_refl)
    as (form & fname & content & _ & _ & _ & _ & _ & Hrun).
  rewrite Hrun in Hup |- *. cbn [uploaded returned] in Hup.
  injection Hup as _ Hname _.
  rewrite deleteFile_cases, downloadHandler_cases, Hget.
  cbn [uploaded world_after server storagePath files disk].
  rewrite Hname, lookup_insert_eq.
  cbn [world_after effects server storagePath files disk].
  rewrite !lookup_delete_eq.
  destruct (String.eqb_spec name "") as [Hempty|_]; [|done].
  exfalso. by rewrite <- Hname in Hempty.
Qed.

Lemma expired_upload_is_gone_witness :
  let expired :=
    world_after
      (deleteFile false "simplehost-1700000000.pdf"
         (world_after (uploadHandler sample_upload_env sample_upload sample_world)))
  in
  files (server expired) !! "simplehost-1700000000.pdf" = None
  /\ disk expired
       !! Join [storagePath (server sample_world); "simplehost-1700000000.pdf"]
     = None
  /\ effects
       (deleteFile false "simplehost-1700000000.pdf"
          (world_after (uploadHandler sample_upload_env sample_upload sample_world)))
     = [EvRemove (Join [storagePath (server sample_world);
                        "simplehost-1700000000.pdf"]) true;
        EvUnregister "simplehost-1700000000.pdf";
        EvPrintDeleted "simplehost-1700000000.pdf"]
  /\ downloadHandler (sample_download_env 0)
       (sample_download "simplehost-1700000000.pdf") expired
     = MkRun expired [] (http_Error "File not found or expired" StatusNotFound).
Proof.
  apply (expired_upload_is_gone sample_upload_env sample_upload sample_world
           {["Content-Type" := "text/html"]} "simplehost-1700000000.pdf"
           "/download?file=simplehost-1700000000.pdf"
           (sample_download_env 0) (sample_download "simplehost-1700000000.pdf")).
  - vm_compute. reflexivity.
  - reflexivity.
Defined.

(** X8: once [deleteFile] has run for a name without an injected
    failure, running it again for that name, whether or not the removal is
    then refused, changes nothing and only prints the error: the file it
    would remove is no longer there. *)
Theorem deleteFile_again_changes_nothing
    (remove_fails : bool) (fileName : string) (w : World) :
  world_after (deleteFile remove_fails fileName
                 (world_after (deleteFile false fileName w)))
  = world_after (deleteFile false fileName w)
  /\ effects (deleteFile remove_fails fileName
                (world_after (deleteFile false fileName w)))
     = [EvRemove (Join [storagePath (server w); fileName]) false;
        EvPrintDeleteError].
Proof.
  rewrite (deleteFile_cases false fileName w).
  destruct (disk w !! Join [storagePath (server w); fileName]) eqn:Hdisk.
  - rewrite deleteFile_cases.
    cbn [world_after server storagePath disk]. by rewrite lookup_delete_eq.
  - rewrite deleteFile_cases. cbn [world_after]. by rewrite Hdisk.
Qed.

(** ** Failed and partial uploads *)

(** X9: when the write of an upload fails after [n] bytes, the handler
    answers 500, the first [n] bytes stay on disk under the generated
    path, and neither a registry entry nor a timer is made for them: the
    registry and the timers are as before. *)
Theorem failed_copy_leaves_partial_file
    (env : UploadEnv) (r : Request) (w : World) (form : list Part)
    (Filename : string) (content : list byte) (n : nat) :
  Method r = "POST" ->
  ParseMultipartForm (Z.shiftl 10 20) r = Some form ->
  FormFile form "file" = Some (Filename, content) ->
  create_fails env = false ->
  copy_fails_after env = Some n ->
  let name := Sprintf_s_d_s "simplehost" (Unix (now_name env)) (Ext Filename) in
  let path := Join [storagePath (server w); name] in
  returned (uploadHandler env r w)
  = http_Error "Unable to save the file" StatusInternalServerError
  /\ disk (world_after (uploadHandler env r w)) !! path = Some (take n content)
  /\ server (world_after (uploadHandler env r w)) = server w
  /\ timers (world_after (uploadHandler env r w)) = timers w
  /\ effects (uploadHandler env r w)
     = [EvCreate path true; EvCopy path (take n content) false].
Proof.
  intros Hm Hp Hf Hc Hcp name path.
  rewrite uploadHandler_flat, Hp, Hf, Hc, Hcp.
  assert (negb (String.eqb (Method r) "POST") = false) as ->
    by (by rewrite Hm).
  fold name. fold path.
  cbn [returned world_after effects set_disk disk server timers].
  by rewrite lookup_insert_eq.
Qed.

Lemma failed_copy_leaves_partial_file_witness :
  returned (uploadHandler sample_failing_copy sample_upload sample_world)
  = http_Error "Unable to save the file" StatusInternalServerError
  /\ disk (world_after (uploadHandler sample_failing_copy sample_upload sample_world))
       !! Join [storagePath (server sample_world);
                Sprintf_s_d_s "simplehost" (Unix (now_name sample_failing_copy))
                  (Ext "report.pdf")]
     = Some (take 2 [x61; x62; x63])
  /\ server (world_after (uploadHandler sample_failing_copy sample_upload
                            sample_world))
     = server sample_world.
Proof.
  destruct (failed_copy_leaves_partial_file sample_failing_copy sample_upload
              sample_world [FilePart "file" "report.pdf" [x61; x62; x63]]
              "report.pdf" [x61; x62; x63] 2
              eq_refl eq_refl eq_refl eq_refl eq_refl)
    as (Hret & Hdisk & Hsrv & _).
  exact (conj Hret (conj Hdisk Hsrv)).
Defined.

(** X10: whatever the request, every path the upload handler hands to the
    file system is the entry of a generated name directly inside the
    cleaned storage root: the uploaded file name reaches the path through
    its extension only. *)
Theorem upload_writes_inside_root
    (env : UploadEnv) (r : Request) (w : World) (e : Event) (path : string) :
  In e (effects (uploadHandler env r w)) ->
  event_path e = Some path ->
  inside_root (storagePath (server w)) path
  /\ exists name, generated name /\ path = Join [storagePath (server w); name].
Proof.
  rewrite uploadHandler_flat.
  destruct (negb _); [done|].
  destruct (ParseMultipartForm _ r) as [form|]; [|done].
  destruct (FormFile form "file") as [[Filename content]|]; [|done].
  pose proof (generated_intro (Unix (now_name env)) Filename) as Hgen.
  intros He Hev.
  assert (path = Join [storagePath (server w);
                       Sprintf_s_d_s "simplehost" (Unix (now_name env))
                         (Ext Filename)]) as ->.
  { cbn zeta in He.
    destruct (create_fails env); [|destruct (copy_fails_after env)];
      cbn [uploaded effects In] in He; intuition subst;
      cbn [event_path] in Hev; congruence. }
  split; [by apply generated_inside_root|eauto].
Qed.

Lemma upload_writes_inside_root_witness :
  inside_root (storagePath (server sample_world))
    "uploads/simplehost-1700000000.pdf"
  /\ exists name,
       generated name
       /\ "uploads/simplehost-1700000000.pdf"
          = Join [storagePath (server sample_world); name].
Proof.
  apply (upload_writes_inside_root sample_upload_env
           {| Method := "POST"; Query := [];
              Payload := Multipart [FilePart "file" "../../etc/report.pdf"
                                      [x61; x62; x63]] |}
           sample_world
           (EvCreate "uploads/simplehost-1700000000.pdf" true)).
  - vm_compute. left. reflexivity.
  - reflexivity.
Defined.

(** ** The invariant of the running service *)

Lemma on_disk_insert (d : gmap string (list byte)) (p q : string)
    (x : list byte) :
  is_Some (d !! q) -> is_Some (<[p := x]> d !! q).
Proof. intros H. apply lookup_insert_is_Some'. by right. Qed.

Lemma uploadHandler_keeps_invariant (env : UploadEnv) (r : Request) (w : World) :
  service_invariant w ->
  service_invariant (world_after (uploadHandler env r w)).
Proof.
  intros (Hkeys & Htimers & Hdisk). rewrite uploadHandler_flat.
  destruct (negb _); [done|].
  destruct (ParseMultipartForm _ r) as [form|]; [|done].
  destruct (FormFile form "file") as [[Filename content]|]; [|done].
  cbn zeta. destruct (create_fails env); [done|].
  pose proof (generated_intro (Unix (now_name env)) Filename) as Hgen.
  destruct (copy_fails_after env) as [n|].
  - split; [done|]. split; [done|].
    intros key expiry Hkey. cbn [world_after set_disk server disk].
    by apply on_disk_insert, on_disk_insert, (Hdisk key expiry).
  - unfold service_invariant.
    cbn [uploaded world_after server storagePath files disk timers].
    split; [by apply map_Forall_insert_2|]. split.
    + apply Forall_app. split; [done|]. by repeat constructor.
    + apply map_Forall_insert_2; [by rewrite lookup_insert_eq|].
      intros key expiry Hkey.
      by apply on_disk_insert, on_disk_insert, (Hdisk key expiry).
Qed.

Lemma deleteFile_keeps_invariant (remove_fails : bool) (name : string) (w : World) :
  generated name ->
  service_invariant w ->
  service_invariant (world_after (deleteFile remove_fails name w)).
Proof.
  intros Hgen (Hkeys & Htimers & Hdisk). rewrite deleteFile_cases.
  destruct (disk w !! _); [|done]. destruct remove_fails; [done|].
  unfold service_invariant. cbn [world_after server storagePath files disk timers].
  split; [by apply map_Forall_delete|]. split; [done|].
  intros key expiry [Hne Hkey]%lookup_delete_Some.
  apply lookup_delete_is_Some. split; [|by apply (Hdisk key expiry)].
  pose proof (Hkeys key expiry Hkey) as Hgen'.
  intros Heq. apply Hne. apply Join_plain_inj in Heq;
    auto using generated_plain_element.
Qed.

Lemma step_keeps_invariant (w w' : World) :
  step w w' ->
  service_invariant w ->
  service_invariant w' /\ storagePath (server w') = storagePath (server w).
Proof.
  intros Hstep Hinv.
  split; [|by apply step_keeps_generated; [|apply Hinv]].
  destruct Hstep as [w|env r w|env r w|env r w|fails d name l1 l2 w Htimers].
  - done.
  - by apply uploadHandler_keeps_invariant.
  - unfold upload_route. destruct (String.eqb (Method r) "GET"); [done|].
    destruct (String.eqb (Method r) "POST"); [|done].
    by apply uploadHandler_keeps_invariant.
  - by rewrite downloadHandler_world.
  - destruct Hinv as (Hkeys & Hts & Hdisk). rewrite Htimers in Hts.
    apply Forall_app in Hts as [Hl1 Hl2].
    inversion Hl2 as [|? ? [_ Hgen] Hl2']; subst.
    apply deleteFile_keeps_invariant; [done|].
    split; [done|]. split; [|done].
    cbn [set_timers timers]. by apply Forall_app.
Qed.

Lemma reachable_invariant (root : string) (d0 : gmap string (list byte))
    (w : World) :
  reachable root d0 w ->
  service_invariant w /\ storagePath (server w) = root.
Proof.
  unfold reachable. revert w. apply rtc_ind_r.
  - split; [|reflexivity]. split; [apply map_Forall_empty|].
    split; [constructor|apply map_Forall_empty].
  - intros w1 w2 _ Hstep [IH1 IH2].
    destruct (step_keeps_invariant w1 w2 Hstep IH1) as [H1 H2].
    split; [done|congruence].
Qed.

(** X11: in every world the service can reach, each pending timer waits
    one hour for a generated name, so the expiry it triggers hands only
    one path to the file system, the entry of that name directly inside
    the storage root. *)
Theorem timers_delete_inside_root
    (root : string) (d0 : gmap string (list byte)) (w : World)
    (d : Z) (name : string) :
  reachable root d0 w ->
  In (d, name) (timers w) ->
  d = 3600 * Second
  /\ generated name
  /\ forall remove_fails e path,
       In e (effects (deleteFile remove_fails name w)) ->
       event_path e = Some path ->
       path = Join [root; name] /\ inside_root root path.
Proof.
  intros [(_ & Hts & _) Hroot]%reachable_invariant Hin.
  rewrite List.Forall_forall in Hts. destruct (Hts _ Hin) as [Hd Hgen].
  split; [exact Hd|]. split; [exact Hgen|].
  intros fails e path He Hev. rewrite deleteFile_cases, Hroot in He.
  assert (path = Join [root; name]) as ->.
  { destruct (disk w !! _); [destruct fails|];
      cbn [effects In] in He; intuition subst;
      cbn [event_path] in Hev; congruence. }
  split; [reflexivity|by apply generated_inside_root].
Qed.

Lemma timers_delete_inside_root_witness :
  In (60 * Minute, "simplehost-1700000000.pdf") (timers sample_uploaded)
  /\ 60 * Minute = 3600 * Second
  /\ generated "simplehost-1700000000.pdf".
Proof.
  assert (Hin : In (60 * Minute, "simplehost-1700000000.pdf")
                   (timers sample_uploaded)) by (left; reflexivity).
  split; [exact Hin|].
  destruct (timers_delete_inside_root "./uploads" ∅ sample_uploaded
              (60 * Minute) "simplehost-1700000000.pdf"
              sample_uploaded_reachable Hin) as (Hd & Hgen & _).
  exact (conj Hd Hgen).
Defined.

(** X12: in every world the service can reach, every name in the registry
    has its file on disk at the path joined from the storage root and the
    name: the file is written before the name is registered, and only the
    expiry of the name removes it. *)
Theorem registered_names_are_on_disk
    (root : string) (d0 : gmap string (list byte)) (w : World) (key : string) :
  reachable root d0 w ->
  is_Some (files (server w) !! key) ->
  is_Some (disk w !! Join [root; key]).
Proof.
  intros [(_ & _ & Hdisk) Hroot]%reachable_invariant [expiry Hkey].
  rewrite <- Hroot. by apply (Hdisk key expiry).
Qed.

Lemma registered_names_are_on_disk_witness :
  is_Some (files (server sample_uploaded_twice) !! "simplehost-1700000000.pdf")
  /\ is_Some (disk sample_uploaded_twice
                !! Join ["./uploads"; "simplehost-1700000000.pdf"]).
Proof.
  assert (Hkey : is_Some (files (server sample_uploaded_twice)
                            !! "simplehost-1700000000.pdf"))
    by (eexists; vm_compute; reflexivity).
  split; [exact Hkey|].
  apply (registered_names_are_on_disk "./uploads" ∅ sample_uploaded_twice
           "simplehost-1700000000.pdf"); [|exact Hkey].
  eapply rtc_r; [exact sample_uploaded_reachable|]. apply step_upload.
Defined.

(** X13: in every world the service can reach, a GET of a registered name
    made no later than its expiry is answered 200 with the bytes the disk
    holds for it, as long as opening the file and reading its size
    succeed; the file cannot be missing. *)
Theorem registered_download_succeeds
    (root : string) (d0 : gmap string (list byte)) (w : World)
    (env : DownloadEnv) (r : Request) (expiresAt : Z) :
  reachable root d0 w ->
  files (server w) !! Get (Query r) "file" = Some expiresAt ->
  now env <= expiresAt ->
  open_fails env = false ->
  stat_fails env = false ->
  Method r = "GET" ->
  exists hdr data,
    disk w !! Join [root; Get (Query r) "file"] = Some data
    /\ returned (downloadHandler env r w)
       = Replied {| status := StatusOK; header := hdr; body := FileBytes data |}.
Proof.
  intros Hreach Hkey Hnow Hopen Hstat Hmethod.
  destruct (reachable_invariant root d0 w Hreach) as [(Hkeys & _ & Hdisk) Hroot].
  destruct (Hdisk _ _ Hkey) as [data Hdata].
  pose proof (generated_plain_element _ (Hkeys _ _ Hkey)) as Hplain.
  unfold is_plain_element in Hplain.
  apply andb_true_iff in Hplain as [Hplain _].
  apply andb_true_iff in Hplain as [Hplain _].
  apply andb_true_iff in Hplain as [Hne _]. apply negb_true_iff in Hne.
  rewrite downloadHandler_cases, Hne, Hkey. unfold After.
  rewrite (proj2 (Z.ltb_ge _ _) Hnow), Hdata, Hopen, Hstat, Hmethod.
  rewrite <- Hroot. eauto.
Qed.

Lemma registered_download_succeeds_witness :
  exists hdr data,
    disk sample_uploaded_twice
      !! Join ["./uploads";
               Get (Query (sample_download "simplehost-1700000000.pdf")) "file"]
    = Some data
    /\ returned (downloadHandler (sample_download_env sample_expiry)
                   (sample_download "simplehost-1700000000.pdf")
                   sample_uploaded_twice)
       = Replied {| status := StatusOK; header := hdr; body := FileBytes data |}.
Proof.
  apply (registered_download_succeeds "./uploads" ∅ sample_uploaded_twice
           (sample_download_env sample_expiry)
           (sample_download "simplehost-1700000000.pdf")
           (now_register sample_upload_env_later + 60 * Minute)).
  - eapply rtc_r; [exact sample_uploaded_reachable|]. apply step_upload.
  - vm_compute. reflexivity.
  - vm_compute. discriminate.
  - reflexivity.
  - reflexivity.
  - reflexivity.
Defined.

(** ** Downloads: the panic and the headers *)

(** X14: the download handler ends in a panic in one case only: the name
    is registered and not expired, the file is on disk and opens, and
    reading its size fails; the size is then asked of a nil value.  In
    every other case it replies. *)
Theorem download_panics_iff_stat_fails
    (env : DownloadEnv) (r : Request) (w : World) :
  returned (downloadHandler env r w) = Panicked
  <-> Get (Query r) "file" <> ""
      /\ (exists expiresAt,
            files (server w) !! Get (Query r) "file" = Some expiresAt
            /\ now env <= expiresAt)
      /\ is_Some (disk w !! Join [storagePath (server w); Get (Query r) "file"])
      /\ open_fails env = false
      /\ stat_fails env = true.
Proof.
  rewrite downloadHandler_cases. split.
  - destruct (String.eqb_spec (Get (Query r) "file") "") as [_|Hname];
      [discriminate|].
    destruct (files (server w) !! _) as [expiry|]; [|discriminate].
    unfold After. destruct (Z.ltb_spec expiry (now env)) as [_|Hnow];
      [discriminate|].
    destruct (disk w !! _) as [content|]; [|discriminate].
    destruct (open_fails env); [discriminate|].
    destruct (stat_fails env); [eauto 10|discriminate].
  - intros (Hname%String.eqb_neq & (expiry & Hkey & Hnow) & [data Hdata]
            & Hopen & Hstat).
    rewrite Hname, Hkey. unfold After.
    by rewrite (proj2 (Z.ltb_ge _ _) Hnow), Hdata, Hopen, Hstat.
Qed.

(** X15: a download answered 200 with bytes announces them as an
    attachment under the requested name, and the Content-Length the
    handler sets is the decimal number of bytes of the body. *)
Theorem download_headers_describe_body
    (env : DownloadEnv) (r : Request) (w : World)
    (hdr : gmap string string) (data : list byte) :
  returned (downloadHandler env r w)
  = Replied {| status := StatusOK; header := hdr; body := FileBytes data |} ->
  hdr !! "Content-Length" = Some (pretty (Z.of_nat (length data)))
  /\ hdr !! "Content-Disposition"
     = Some ("attachment; filename=" +:+ dquote +:+ Get (Query r) "file"
             +:+ dquote).
Proof.
  rewrite downloadHandler_cases.
  destruct (String.eqb _ ""); [discriminate|].
  destruct (files (server w) !! _) as [expiry|]; [|discriminate].
  destruct (After (now env) expiry); [discriminate|].
  destruct (disk w !! _) as [content|]; [|discriminate].
  destruct (open_fails env); [discriminate|].
  destruct (stat_fails env); [discriminate|].
  cbn [returned]. destruct (String.eqb (Method r) "HEAD"); [discriminate|].
  intros [= <- <-]. split; [apply lookup_insert_eq|].
  rewrite !lookup_insert_ne by discriminate. apply lookup_singleton_eq.
Qed.

Lemma download_headers_describe_body_witness :
  exists hdr,
    returned (downloadHandler (sample_download_env 0)
                (sample_download "simplehost-1700000000.pdf") sample_uploaded)
    = Replied {| status := StatusOK; header := hdr;
                 body := FileBytes [x61; x62; x63] |}
    /\ hdr !! "Content-Length" = Some (pretty (Z.of_nat (length [x61; x62; x63]))).
Proof.
  eexists.
  assert (H : returned (downloadHandler (sample_download_env 0)
                          (sample_download "simplehost-1700000000.pdf")
                          sample_uploaded)
              = Replied {| status := StatusOK; header := _;
                           body := FileBytes [x61; x62; x63] |})
    by (vm_compute; reflexivity).
  split; [exact H|].
  apply (download_headers_describe_body _ _ _ _ _ H).
Defined.

(** ** The [/upload] route and malformed uploads *)

(** X16: through the [/upload] route of [main] a GET is answered 404 and
    a method that is neither GET nor POST gets the empty default answer,
    both without any effect; only a POST reaches the upload handler.  So
    the route never answers 405, and never panics. *)
Theorem upload_route_answers (env : UploadEnv) (r : Request) (w : World) :
  (Method r = "GET" ->
   upload_route env r w
   = MkRun w [] (http_Error "Route Doesn't Exist :/" StatusNotFound))
  /\ (Method r = "POST" -> upload_route env r w = uploadHandler env r w)
  /\ (Method r <> "GET" -> Method r <> "POST" ->
      upload_route env r w
      = MkRun w [] (Replied {| status := StatusOK; header := ∅; body := NoBody |}))
  /\ exists resp,
       returned (upload_route env r w) = Replied resp
       /\ status resp <> StatusMethodNotAllowed.
Proof.
  unfold upload_route. repeat split.
  - by intros ->.
  - by intros ->.
  - intros Hg%String.eqb_neq Hp%String.eqb_neq. by rewrite Hg, Hp.
  - destruct (String.eqb (Method r) "GET"); [by eexists|].
    destruct (String.eqb (Method r) "POST") eqn:Hp; [|by eexists].
    rewrite uploadHandler_flat, Hp. cbn [negb].
    destruct (ParseMultipartForm _ r) as [form|]; [|by eexists].
    destruct (FormFile form "file") as [[Filename content]|]; [|by eexists].
    cbn zeta. destruct (create_fails env); [by eexists|].
    destruct (copy_fails_after env); by eexists.
Qed.

Lemma FormFile_absent (form : list Part) (key : string) :
  (forall Filename content, ~ In (FilePart key Filename content) form) ->
  FormFile form key = None.
Proof.
  induction form as [|[k v|k Filename content] form IH]; intros H; [done|..].
  - cbn [FormFile]. apply IH. intros f c Hin. apply (H f c). by right.
  - cbn [FormFile]. destruct (String.eqb_spec k key) as [->|_].
    + exfalso. apply (H Filename content). by left.
    + apply IH. intros f c Hin. apply (H f c). by right.
Qed.

(** X17: a POST whose multipart form has no file part under the field
    name [file] (a plain value of that name does not count, nor does a
    file under another name) is answered 400; nothing is written,
    registered or scheduled. *)
Theorem upload_without_file_part_is_bad_request
    (env : UploadEnv) (r : Request) (w : World) (parts : list Part) :
  Method r = "POST" ->
  Payload r = Multipart parts ->
  (forall Filename content, ~ In (FilePart "file" Filename content) parts) ->
  (exists msg,
     returned (uploadHandler env r w) = http_Error msg StatusBadRequest)
  /\ world_after (uploadHandler env r w) = w
  /\ effects (uploadHandler env r w) = [].
Proof.
  intros Hm Hpay Hnone%FormFile_absent. rewrite uploadHandler_flat.
  assert (negb (String.eqb (Method r) "POST") = false) as -> by (by rewrite Hm).
  unfold ParseMultipartForm. rewrite Hpay.
  destruct (_ <? _); [by eauto|]. rewrite Hnone. by eauto.
Qed.

Lemma upload_without_file_part_is_bad_request_witness :
  (exists msg,
     returned (uploadHandler sample_upload_env sample_upload_no_file sample_uploaded)
     = http_Error msg StatusBadRequest)
  /\ world_after (uploadHandler sample_upload_env sample_upload_no_file
                    sample_uploaded) = sample_uploaded
  /\ effects (uploadHandler sample_upload_env sample_upload_no_file
                sample_uploaded) = [].
Proof.
  apply (upload_without_file_part_is_bad_request sample_upload_env
           sample_upload_no_file sample_uploaded
           [ValuePart "file" "abc"; FilePart "attachment" "a.txt" [x61]]).
  - reflexivity.
  - reflexivity.
  - intros Filename content [H|[H|[]]]; discriminate H.
Defined.

Lemma download_panics_iff_stat_fails_witness :
  returned (downloadHandler
              {| now := 0; open_fails := false; stat_fails := true;
                 DetectContentType := sample_sniffer |}
              (sample_download "simplehost-1700000000.pdf") sample_uploaded)
  = Panicked.
Proof.
  apply (download_panics_iff_stat_fails
           {| now := 0; open_fails := false; stat_fails := true;
              DetectContentType := sample_sniffer |}
           (sample_download "simplehost-1700000000.pdf") sample_uploaded).
  split; [discriminate|]. split.
  - exists sample_expiry. split; [vm_compute; reflexivity|vm_compute; discriminate].
  - split; [|split; reflexivity].
    exists [x61; x62; x63]. vm_compute. reflexivity.
Defined.

(** ** A fresh server, and a failed upload over a registered name *)

(** X18: a server just made by [NewServer] has an empty registry, so
    whatever files the storage directory already holds, every download is
    answered 400 or 404 without touching the file system. *)
Theorem fresh_server_serves_nothing
    (root : string) (d0 : gmap string (list byte))
    (env : DownloadEnv) (r : Request) :
  files (NewServer root) = ∅
  /\ effects (downloadHandler env r (initial root d0)) = []
  /\ (returned (downloadHandler env r (initial root d0))
      = http_Error "File name is required" StatusBadRequest
      \/ returned (downloadHandler env r (initial root d0))
         = http_Error "File not found or expired" StatusNotFound).
Proof.
  split; [reflexivity|]. rewrite downloadHandler_cases.
  destruct (String.eqb _ ""); [by auto|].
  cbn [initial server NewServer files]. rewrite lookup_empty. by auto.
Qed.

(** X19: an upload that derives a name already registered and fails
    while writing has by then truncated the registered file: the registry
    entry is unchanged, and a download of the name made no later than its
    expiry is answered 200 with only the bytes written before the
    failure. *)
Theorem failed_upload_truncates_registered_file
    (uenv : UploadEnv) (ur : Request) (w : World) (form : list Part)
    (Filename : string) (content : list byte) (n : nat) (expiresAt : Z)
    (denv : DownloadEnv) (dr : Request) :
  Method ur = "POST" ->
  ParseMultipartForm (Z.shiftl 10 20) ur = Some form ->
  FormFile form "file" = Some (Filename, content) ->
  create_fails uenv = false ->
  copy_fails_after uenv = Some n ->
  let name := Sprintf_s_d_s "simplehost" (Unix (now_name uenv)) (Ext Filename) in
  files (server w) !! name = Some expiresAt ->
  Get (Query dr) "file" = name ->
  Method dr = "GET" ->
  now denv <= expiresAt ->
  open_fails denv = false ->
  stat_fails denv = false ->
  files (server (world_after (uploadHandler uenv ur w))) !! name = Some expiresAt
  /\ exists hdr,
       returned (downloadHandler denv dr (world_after (uploadHandler uenv ur w)))
       = Replied {| status := StatusOK; header := hdr;
                    body := FileBytes (take n content) |}.
Proof.
  intros Hm Hp Hf Hc Hcp name Hkey Hget Hmethod Hnow Hopen Hstat.
  rewrite uploadHandler_flat, Hp, Hf, Hc, Hcp.
  assert (negb (String.eqb (Method ur) "POST") = false) as -> by (by rewrite Hm).
  fold name. cbn [world_after set_disk server files].
  split; [exact Hkey|].
  rewrite downloadHandler_cases, Hget.
  cbn [set_disk server disk storagePath].
  assert (String.eqb name "" = false) as -> by reflexivity.
  rewrite Hkey, lookup_insert_eq. unfold After.
  rewrite (proj2 (Z.ltb_ge _ _) Hnow), Hopen, Hstat, Hmethod.
  by eexists.
Qed.

Lemma failed_upload_truncates_registered_file_witness :
  files (server (world_after
                   (uploadHandler sample_failing_copy sample_upload_other
                      sample_uploaded)))
    !! "simplehost-1700000000.pdf" = Some sample_expiry
  /\ exists hdr,
       returned (downloadHandler (sample_download_env 0)
                   (sample_download "simplehost-1700000000.pdf")
                   (world_after
                      (uploadHandler sample_failing_copy sample_upload_other
                         sample_uploaded)))
       = Replied {| status := StatusOK; header := hdr;
                    body := FileBytes (take 2 [x78; x79; x7a]) |}.
Proof.
  apply (failed_upload_truncates_registered_file sample_failing_copy
           sample_upload_other sample_uploaded
           [FilePart "file" "report.pdf" [x78; x79; x7a]]
           "report.pdf" [x78; x79; x7a] 2 sample_expiry
           (sample_download_env 0)
           (sample_download "simplehost-1700000000.pdf")).
  - reflexivity.
  - reflexivity.
  - reflexivity.
  - reflexivity.
  - reflexivity.
  - vm_compute. reflexivity.
  - reflexivity.
  - reflexivity.
  - vm_compute. discriminate.
  - reflexivity.
  - reflexivity.
Defined.
